(** * WeatherApp: forecast aggregation and scheduled announcement

    A shallow embedding of the two programs of the repository,

    - [backend/app.js]: the Express handler of [GET /weather], and
    - [frontend/src/App.js]: the React component [App] with its closures
      [fetchWeather], [speakWeather] and [scheduleSpeech],

    together with the properties stated about them.

    JavaScript values are the values [JSON.parse] can produce (plus
    [undefined]); an abrupt completion is always a [TypeError] here, so the
    completion type has a single [Throw].  What the host provides (numbers
    and their printing, the [Date] parser and formatter) is collected in
    the record [Platform]; strings are sequences of code units, written
    with the standard [string] type. *)

From Stdlib Require Import String Ascii List ZArith Lia Bool Arith DecimalString.
Import ListNotations.
Open Scope string_scope.
Set Warnings "-register-all".

(** ** The host platform *)

Record Platform := {
  (** the Number type *)
  number : Type;
  (** [Number::toString(n)] *)
  Number_toString : number -> string;
  (** [StringToNumber(s)] *)
  StringToNumber : string -> number;
  (** [n > 0]; false on [NaN] *)
  Number_gt0 : number -> bool;
  (** [TimeClip(n)], the time value of [new Date(n)]; [None] is [NaN] *)
  Number_TimeClip : number -> option Z;
  (** the time value of [new Date(s)] in milliseconds; [None] is [NaN],
      an Invalid Date *)
  Date_parse : string -> option Z;
  (** [d.toLocaleDateString()] of the date with that time value *)
  Date_toLocaleDateString : option Z -> string;
  (** the empty string is not a date *)
  Date_parse_empty : Date_parse "" = None
}.

(** ** Completions *)

Inductive completion (A : Type) : Type :=
| Normal (a : A)
| Throw.
Arguments Normal {A} a.
Arguments Throw {A}.

Definition bind {A B} (c : completion A) (k : A -> completion B) : completion B :=
  match c with
  | Normal a => k a
  | Throw => Throw
  end.

Notation "x <- c ;; k" := (bind c (fun x => k))
  (at level 61, c at next level, right associativity).

Fixpoint mapM {A B} (f : A -> completion B) (xs : list A) : completion (list B) :=
  match xs with
  | [] => Normal []
  | x :: xs' => y <- f x ;; ys <- mapM f xs' ;; Normal (y :: ys)
  end.

(** ** Values *)

Module JS.
Section Values.
Context {P : Platform}.

(** An object is the list of its own properties; a lookup takes the first
    binding of the key. *)
Inductive JSValue : Type :=
| JUndefined
| JNull
| JBool (b : bool)
| JNumber (n : number P)
| JString (s : string)
| JArray (elements : list JSValue)
| JObject (properties : list (string * JSValue)).

Fixpoint lookup (k : string) (ps : list (string * JSValue)) : option JSValue :=
  match ps with
  | [] => None
  | (k', v) :: ps' => if String.eqb k k' then Some v else lookup k ps'
  end.

Definition has_own (k : string) (ps : list (string * JSValue)) : bool :=
  match lookup k ps with Some _ => true | None => false end.

Definition or_undefined (o : option JSValue) : JSValue :=
  match o with Some v => v | None => JUndefined end.

(** [v.k] for a property name [k] that is neither an array index, nor
    ["length"], nor a member of a built-in prototype: all the names the
    programs read with a dot ([list], [dt_txt], [main], [temp],
    [feels_like], [weather], [description], [date], [temperature]). *)
Definition Get (v : JSValue) (k : string) : completion JSValue :=
  match v with
  | JUndefined | JNull => Throw
  | JObject ps => Normal (or_undefined (lookup k ps))
  | JBool _ | JNumber _ | JString _ | JArray _ => Normal JUndefined
  end.

Definition index_key (i : nat) : string :=
  NilEmpty.string_of_uint (Nat.to_uint i).

(** [v[i]] for a literal index [i]. *)
Definition GetIndex (v : JSValue) (i : nat) : completion JSValue :=
  match v with
  | JUndefined | JNull => Throw
  | JArray xs => Normal (or_undefined (nth_error xs i))
  | JString s =>
      Normal (match String.get i s with
              | Some c => JString (String c EmptyString)
              | None => JUndefined
              end)
  | JObject ps => Normal (or_undefined (lookup (index_key i) ps))
  | JBool _ | JNumber _ => Normal JUndefined
  end.

(** [v.slice(0, n)]: arrays and strings have the method; on anything else
    the callee is [undefined] or a non-callable own property. *)
Definition call_slice (v : JSValue) (n : nat) : completion JSValue :=
  match v with
  | JArray xs => Normal (JArray (firstn n xs))
  | JString s => Normal (JString (substring 0 n s))
  | _ => Throw
  end.

(** [v.map(f)]: only arrays have the method. *)
Definition call_map {B} (f : JSValue -> completion B) (v : JSValue)
  : completion (list B) :=
  match v with
  | JArray xs => mapM f xs
  | _ => Throw
  end.

(** [ToString(v)], as a template literal applies it.  An array prints
    through [join]; a plain object prints as ["[object Object]"] unless an
    own (hence non-callable) [toString] property shadows the method, in
    which case [OrdinaryToPrimitive] finds no usable method. *)
Fixpoint ToString (v : JSValue) : completion string :=
  match v with
  | JUndefined => Normal "undefined"
  | JNull => Normal "null"
  | JBool true => Normal "true"
  | JBool false => Normal "false"
  | JNumber n => Normal (Number_toString P n)
  | JString s => Normal s
  | JArray xs =>
      let fix elements (xs : list JSValue) : completion (list string) :=
        match xs with
        | [] => Normal []
        | x :: xs' =>
            s <- match x with
                 | JUndefined | JNull => Normal ""
                 | _ => ToString x
                 end ;;
            ss <- elements xs' ;;
            Normal (s :: ss)
        end in
      ss <- elements xs ;; Normal (String.concat "," ss)
  | JObject ps =>
      if has_own "toString" ps then Throw else Normal "[object Object]"
  end.

(** [v > 0]: [ToPrimitive] with hint number, then [ToNumber]. *)
Definition gt0 (v : JSValue) : completion bool :=
  match v with
  | JUndefined | JNull => Normal false
  | JBool b => Normal b
  | JNumber n => Normal (Number_gt0 P n)
  | JString s => Normal (Number_gt0 P (StringToNumber P s))
  | JArray _ | JObject _ =>
      s <- ToString v ;; Normal (Number_gt0 P (StringToNumber P s))
  end.

(** [v.length > 0].  The length of an array or of a string is its number
    of elements; other values have a length only as an own property. *)
Definition length_gt0 (v : JSValue) : completion bool :=
  match v with
  | JUndefined | JNull => Throw
  | JArray xs => Normal (negb (Nat.eqb (List.length xs) 0))
  | JString s => Normal (negb (Nat.eqb (String.length s) 0))
  | JObject ps => gt0 (or_undefined (lookup "length" ps))
  | JBool _ | JNumber _ => Normal false
  end.

(** The time value of [new Date(v)]. *)
Definition Date_of (v : JSValue) : completion (option Z) :=
  match v with
  | JUndefined => Normal None
  | JNull => Normal (Some 0%Z)
  | JBool b => Normal (Some (if b then 1%Z else 0%Z))
  | JNumber n => Normal (Number_TimeClip P n)
  | JString s => Normal (Date_parse P s)
  | JArray _ | JObject _ => s <- ToString v ;; Normal (Date_parse P s)
  end.

End Values.
Arguments JSValue : clear implicits.
End JS.
Import JS.

(** ** backend/app.js *)

Module Backend.
Section Handler.
Context {P : Platform}.

Definition API_KEY : string := "your_openweathermap_api_key".

(** What awaiting [axios.get(url)] gives.  With the default
    [validateStatus] the promise is rejected when the request fails
    (no response: network error, timeout) and when the status is outside
    2xx (an unknown city is a 404).  Otherwise it is fulfilled with a
    response whose [data] is the parsed body, or the body text itself
    when the text is not JSON. *)
Inductive axios_result : Type :=
| NoResponse
| BadStatus (status : nat) (data : JSValue P)
| Fulfilled (data : JSValue P).

(** A response: its status and, as [body], the value handed to
    [res.json].  [res.json] sends the [JSON.stringify] of that value, which
    leaves out every property bound to [undefined]. *)
Record Response := { status : nat; body : JSValue P }.

(** The request [axios.get] is called with. *)
Definition forecast_url (city : string) : string :=
  "http://api.openweathermap.org/data/2.5/forecast?q=" ++ city
  ++ "&appid=" ++ API_KEY ++ "&units=metric".

(** The callback of [weatherData.map]. *)
Definition forecast_slot (item : JSValue P) : completion (JSValue P) :=
  date <- Get item "dt_txt" ;;
  main <- Get item "main" ;;
  temperature <- Get main "temp" ;;
  weather <- Get item "weather" ;;
  first <- GetIndex weather 0 ;;
  description <- Get first "description" ;;
  main' <- Get item "main" ;;
  feels_like <- Get main' "feels_like" ;;
  Normal (JObject [("date", date);
                   ("temperature", temperature);
                   ("description", description);
                   ("feels_like", feels_like)]).

(** The body of the [try] block, once the request is fulfilled. *)
Definition try_block (data : JSValue P) : completion (list (JSValue P)) :=
  list <- Get data "list" ;;
  weatherData <- call_slice list (5 * 8) ;;
  call_map forecast_slot weatherData.

Definition error_response : Response :=
  {| status := 500;
     body := JObject [("error", JString "Error fetching weather data")] |}.

Definition ok_response (slots : list (JSValue P)) : Response :=
  {| status := 200; body := JArray slots |}.

(** [app.get('/weather', ...)]: the response sent for [?city=<city>],
    given what the upstream provider answers to each request. *)
Definition weather_handler (axios_get : string -> axios_result) (city : string)
  : Response :=
  match axios_get (forecast_url city) with
  | NoResponse | BadStatus _ _ => error_response
  | Fulfilled data =>
      match try_block data with
      | Normal slots => ok_response slots
      | Throw => error_response
      end
  end.

(** *** Upstream records *)

Definition nullish (v : JSValue P) : bool :=
  match v with JUndefined | JNull => true | _ => false end.

(** An upstream record: a value with a [main] part and a first [weather]
    condition to read from. *)
Definition is_record (item : JSValue P) : bool :=
  match item with
  | JObject ps =>
      negb (nullish (or_undefined (lookup "main" ps)))
      && match GetIndex (or_undefined (lookup "weather" ps)) 0 with
         | Normal first => negb (nullish first)
         | Throw => false
         end
  | _ => false
  end.

(** The fields the specification names: timestamp, mean temperature,
    felt temperature and first weather-condition description. *)
Record ForecastSlot := {
  timestamp : JSValue P;
  temperature : JSValue P;
  feltTemperature : JSValue P;
  description : JSValue P
}.

Definition slot_object (s : ForecastSlot) : JSValue P :=
  JObject [("date", timestamp s);
           ("temperature", temperature s);
           ("description", description s);
           ("feels_like", feltTemperature s)].

(** Reading a (possibly nested) field of a record. *)
Definition field (item : JSValue P) (k : string) : JSValue P :=
  match item with
  | JObject ps => or_undefined (lookup k ps)
  | _ => JUndefined
  end.

Definition first_of (v : JSValue P) : JSValue P :=
  match GetIndex v 0 with Normal x => x | Throw => JUndefined end.

(** The slot the specification describes for a record: [dt_txt],
    [main.temp], [main.feels_like] and [weather[0].description]. *)
Definition extract (item : JSValue P) : ForecastSlot :=
  {| timestamp := field item "dt_txt";
     temperature := field (field item "main") "temp";
     feltTemperature := field (field item "main") "feels_like";
     description := field (first_of (field item "weather")) "description" |}.

Definition slot_of (item : JSValue P) : JSValue P := slot_object (extract item).

(** The provider answered with a body whose [list] is the array [recs]. *)
Definition returns_list (r : axios_result) (recs : list (JSValue P)) : Prop :=
  exists data, r = Fulfilled data /\ field data "list" = JArray recs.

(** An upstream failure, as the specification lists them: no response
    (network error, timeout), a status outside 2xx (unknown city), or a
    malformed body: text that is not JSON, a value without a [list] array,
    or a list with an entry among the first 40 that is not a record. *)
Inductive upstream_failure : axios_result -> Prop :=
| network_error : upstream_failure NoResponse
| non_2xx : forall status data,
    (status < 200 \/ 300 <= status) -> upstream_failure (BadStatus status data)
| malformed_body : forall text, upstream_failure (Fulfilled (JString text))
| missing_list : forall data,
    (forall recs, field data "list" <> JArray recs) ->
    upstream_failure (Fulfilled data)
| malformed_record : forall data recs,
    field data "list" = JArray recs ->
    forallb is_record (firstn 40 recs) = false ->
    upstream_failure (Fulfilled data).

End Handler.
Arguments axios_result : clear implicits.
Arguments Response : clear implicits.
Arguments ForecastSlot : clear implicits.
End Backend.

(** ** frontend/src/App.js *)

Module Frontend.
Section App.
Context {P : Platform}.

(** The keys of the object [accents]. *)
Inductive AccentKey : Type :=
| british_male | british_female | british_slang
| french_male | french_female
| italian_male | italian_female
| jamaican_male | jamaican_female.

Definition accents (key : AccentKey) : string :=
  match key with
  | british_male => "Google UK English Male"
  | british_female => "Google UK English Female"
  | british_slang => "Google UK English Male"
  | french_male => "Google français"
  | french_female => "Google français"
  | italian_male => "Google italiano Male"
  | italian_female => "Google italiano Female"
  | jamaican_male => "Google US English Male"
  | jamaican_female => "Google US English Female"
  end.

Record SpeechSynthesisVoice := {
  voiceURI : string;
  name : string;
  lang : string
}.

(** [voice := None] is the [null] voice: the platform speaks with its
    default voice. *)
Record SpeechSynthesisUtterance := {
  text : string;
  voice : option SpeechSynthesisVoice
}.

(** The state of the component, in the order of its [useState] calls.
    The closures of one render read the values of that render. *)
Record State := {
  city : string;
  accent : AccentKey;
  weather : JSValue P;
  voicePermissionsGranted : bool;
  scheduleTime : string
}.

Definition initial_state : State :=
  {| city := "London";
     accent := british_male;
     weather := JArray [];
     voicePermissionsGranted := false;
     scheduleTime := "" |}.

Definition setCity (c : string) (s : State) : State :=
  {| city := c; accent := accent s; weather := weather s;
     voicePermissionsGranted := voicePermissionsGranted s;
     scheduleTime := scheduleTime s |}.

Definition setAccent (a : AccentKey) (s : State) : State :=
  {| city := city s; accent := a; weather := weather s;
     voicePermissionsGranted := voicePermissionsGranted s;
     scheduleTime := scheduleTime s |}.

Definition setWeather (data : JSValue P) (s : State) : State :=
  {| city := city s; accent := accent s; weather := data;
     voicePermissionsGranted := voicePermissionsGranted s;
     scheduleTime := scheduleTime s |}.

Definition setScheduleTime (value : string) (s : State) : State :=
  {| city := city s; accent := accent s; weather := weather s;
     voicePermissionsGranted := voicePermissionsGranted s;
     scheduleTime := value |}.

Definition handleAccentChange (newAccent : AccentKey) (s : State) : State :=
  setAccent newAccent s.

(** What [await fetch(url)] followed by [await response.json()] gives:
    the first promise is rejected on a network error, the second when the
    body is not JSON. *)
Inductive fetch_result : Type :=
| NetworkError
| NotJSON
| Json (data : JSValue P).

(** The browser around the component, at each instant. *)
Record Browser := {
  fetch : Z -> string -> fetch_result;
  getVoices : Z -> list SpeechSynthesisVoice
}.

Inductive Event : Type :=
| Alert (message : string)
| SetTimeout (delay : Z)
| Fetch (url : string)
| ConsoleError (label : string)
| Speak (utterance : SpeechSynthesisUtterance)
| UncaughtTypeError.

(** A pending [setTimeout]: the instant it is due, and the render whose
    closures its callback calls. *)
Record Timer := { due : Z; render : State }.

Record World := {
  current : State;
  timers : list Timer;
  trace : list (Z * Event)
}.

Definition log (now : Z) (e : Event) (w : World) : World :=
  {| current := current w; timers := timers w;
     trace := trace w ++ [(now, e)] |}.

Definition weather_url (c : string) : string :=
  "http://localhost:3001/weather?city=" ++ c.

(** [fetchWeather], called at [now] through the closure of render [s]. *)
Definition fetchWeather (b : Browser) (now : Z) (s : State) (w : World) : World :=
  let w := log now (Fetch (weather_url (city s))) w in
  match fetch b now (weather_url (city s)) with
  | Json data =>
      {| current := setWeather data (current w); timers := timers w;
         trace := trace w |}
  | NetworkError | NotJSON => log now (ConsoleError "Error fetching weather:") w
  end.

(** The callback of [weather.map] in [speakWeather]. *)
Definition sentence (item : JSValue P) : completion string :=
  date <- Get item "date" ;;
  d <- Date_of date ;;
  temperature <- Get item "temperature" ;;
  t <- ToString temperature ;;
  feels_like <- Get item "feels_like" ;;
  f <- ToString feels_like ;;
  description <- Get item "description" ;;
  ds <- ToString description ;;
  Normal ("On " ++ Date_toLocaleDateString P d
          ++ ", the temperature will be " ++ t
          ++ " degrees Celsius, feels like " ++ f
          ++ " degrees, with " ++ ds ++ ".").

Definition intro (c : string) : string :=
  "Here is the weather for the next 5 days in " ++ c ++ ".".

Definition select_voice (key : AccentKey) (voices : list SpeechSynthesisVoice)
  : option SpeechSynthesisVoice :=
  find (fun v => String.eqb (name v) (accents key)) voices.

(** [speakWeather] through the closure of render [s]: the utterance
    handed to [speechSynthesis.speak], if any. *)
Definition speakWeather (voices : list SpeechSynthesisVoice) (s : State)
  : completion (option SpeechSynthesisUtterance) :=
  nonempty <- length_gt0 (weather s) ;;
  if (nonempty : bool) then
    sentences <- call_map sentence (weather s) ;;
    Normal (Some {| text := intro (city s) ++ String.concat " " sentences;
                    voice := select_voice (accent s) voices |})
  else Normal None.

(** The body of the timer callback, [fetchWeather().then(speakWeather)]:
    both closures belong to the render [s] that armed the timer.  [city]
    and [weather] are constants of that render: [setWeather] changes what
    the next render reads, not what these closures read.  [fetchWeather]
    catches its own errors, so [speakWeather] always follows it; the chain
    is run in one step, with no other event in between. *)
Definition callback (b : Browser) (now : Z) (s : State) (w : World) : World :=
  let w := fetchWeather b now s w in
  match speakWeather (getVoices b now) s with
  | Normal (Some u) => log now (Speak u) w
  | Normal None => w
  | Throw => log now UncaughtTypeError w
  end.

(** [setTimeout] takes its delay as a Web IDL [long]: the number is
    reduced modulo 2^32 into the signed 32-bit range, and a negative
    timeout counts as 0. *)
Definition to_long (x : Z) : Z :=
  let r := (x mod 2 ^ 32)%Z in
  if (r <? 2 ^ 31)%Z then r else (r - 2 ^ 32)%Z.

Definition timeout_of (delay : Z) : Z := Z.max 0 (to_long delay).

Fixpoint enqueue (tm : Timer) (queue : list Timer) : list Timer :=
  match queue with
  | [] => [tm]
  | x :: queue' =>
      if (due tm <? due x)%Z then tm :: queue else x :: enqueue tm queue'
  end.

Definition setTimeout (now : Z) (s : State) (delay : Z) (w : World) : World :=
  {| current := current w;
     timers := enqueue {| due := now + timeout_of delay; render := s |} (timers w);
     trace := trace w ++ [(now, SetTimeout delay)] |}.

Definition rejection : string := "Scheduled time must be in the future.".

(** [scheduleSpeech], clicked at [now] in the current render.  An Invalid
    Date compares false with every date. *)
Definition scheduleSpeech (now : Z) (w : World) : World :=
  let s := current w in
  match Date_parse P (scheduleTime s) with
  | Some scheduleDate =>
      if (now <? scheduleDate)%Z
      then setTimeout now s (scheduleDate - now) w
      else log now (Alert rejection) w
  | None => log now (Alert rejection) w
  end.

(** The ready timers run one after the other. *)
Definition run (b : Browser) (ready : list Timer) (w : World) : World :=
  fold_left (fun w tm => callback b (due tm) (render tm) w) ready w.

(** The event loop up to the instant [t]: the timers due by then leave
    the queue and run, in the order of the queue. *)
Definition advance (b : Browser) (t : Z) (w : World) : World :=
  run b (filter (fun tm => (due tm <=? t)%Z) (timers w))
      {| current := current w;
         timers := filter (fun tm => negb (due tm <=? t)%Z) (timers w);
         trace := trace w |}.

(** A forecast slot as the endpoint sends it, and the bundle the
    component receives: an array of such objects. *)
Record ForecastSlot := {
  date : string;
  temperature : number P;
  feltTemperature : number P;
  description : string
}.

Definition slot_value (x : ForecastSlot) : JSValue P :=
  JObject [("date", JString (date x));
           ("temperature", JNumber (temperature x));
           ("description", JString (description x));
           ("feels_like", JNumber (feltTemperature x))].

Definition bundle_value (bundle : list ForecastSlot) : JSValue P :=
  JArray (map slot_value bundle).

(** The sentence the specification gives for a slot. *)
Definition slot_sentence (x : ForecastSlot) : string :=
  "On " ++ Date_toLocaleDateString P (Date_parse P (date x))
  ++ ", the temperature will be " ++ Number_toString P (temperature x)
  ++ " degrees Celsius, feels like " ++ Number_toString P (feltTemperature x)
  ++ " degrees, with " ++ description x ++ ".".

Definition start : World :=
  {| current := initial_state; timers := []; trace := [] |}.

(** The requests sent to the aggregator, with their instants. *)
Fixpoint fetches (tr : list (Z * Event)) : list (Z * string) :=
  match tr with
  | [] => []
  | (t, Fetch url) :: tr' => (t, url) :: fetches tr'
  | _ :: tr' => fetches tr'
  end.

Fixpoint spoken (tr : list (Z * Event)) : list SpeechSynthesisUtterance :=
  match tr with
  | [] => []
  | (_, Speak u) :: tr' => u :: spoken tr'
  | _ :: tr' => spoken tr'
  end.

Fixpoint armed (tr : list (Z * Event)) : list Z :=
  match tr with
  | [] => []
  | (_, SetTimeout delay) :: tr' => delay :: armed tr'
  | _ :: tr' => armed tr'
  end.

(** What a callback appends to the trace, and the state it leaves. *)
Definition callback_events (b : Browser) (now : Z) (s : State) : list (Z * Event) :=
  ((now, Fetch (weather_url (city s)))
   :: match fetch b now (weather_url (city s)) with
      | Json _ => []
      | _ => [(now, ConsoleError "Error fetching weather:")]
      end
   ++ match speakWeather (getVoices b now) s with
      | Normal (Some u) => [(now, Speak u)]
      | Normal None => []
      | Throw => [(now, UncaughtTypeError)]
      end)%list.

Definition callback_state (b : Browser) (now : Z) (s cur : State) : State :=
  match fetch b now (weather_url (city s)) with
  | Json data => setWeather data cur
  | _ => cur
  end.

End App.
Arguments State : clear implicits.
Arguments World : clear implicits.
Arguments Event : clear implicits.
Arguments Timer : clear implicits.
Arguments Browser : clear implicits.
Arguments fetch_result : clear implicits.
Arguments ForecastSlot : clear implicits.
End Frontend.

(** ** frontend/src/App.js: the rendered controls *)

Module View.
Import Frontend.
Section App.
Context {P : Platform}.

(** The property names of [accents], in the order [Object.keys] lists
    them. *)
Definition key_name (key : AccentKey) : string :=
  match key with
  | british_male => "british_male"
  | british_female => "british_female"
  | british_slang => "british_slang"
  | french_male => "french_male"
  | french_female => "french_female"
  | italian_male => "italian_male"
  | italian_female => "italian_female"
  | jamaican_male => "jamaican_male"
  | jamaican_female => "jamaican_female"
  end.

Definition keys : list AccentKey :=
  [british_male; british_female; british_slang;
   french_male; french_female;
   italian_male; italian_female;
   jamaican_male; jamaican_female].

(** [acc.replace('_', ' ')]: a string pattern replaces its first
    occurrence only. *)
Fixpoint replace_underscore (s : string) : string :=
  match s with
  | EmptyString => EmptyString
  | String c s' =>
      if Ascii.eqb c "_" then String " " s'
      else String c (replace_underscore s')
  end.

Definition between (lo hi : nat) (c : ascii) : bool :=
  ((lo <=? nat_of_ascii c) && (nat_of_ascii c <=? hi))%nat.

(** The class [\w]: letters, digits and the underscore. *)
Definition word_char (c : ascii) : bool :=
  between 97 122 c || between 65 90 c || between 48 57 c || Ascii.eqb c "_".

(** [l.toUpperCase()] for a one-character match of [\w]. *)
Definition toUpperCase (c : ascii) : ascii :=
  if between 97 122 c then ascii_of_nat (nat_of_ascii c - 32) else c.

(** [s.replace(/\b\w/g, (l) => l.toUpperCase())]: the matches are the word
    characters that do not follow a word character; [inside] tells whether
    the previous character is one. *)
Fixpoint capitalize (inside : bool) (s : string) : string :=
  match s with
  | EmptyString => EmptyString
  | String c s' =>
      String (if word_char c && negb inside then toUpperCase c else c)
             (capitalize (word_char c) s')
  end.

(** The text of the button of [acc]. *)
Definition label (acc : string) : string :=
  capitalize false (replace_underscore acc).

(** The [className] of the button of [acc] when the state holds [accent]. *)
Definition className (acc accent : string) : string :=
  "accent-button " ++ (if String.eqb acc accent then "active" else "").

Record Button := {
  key : string;
  class : string;
  children : string;
  onClick : State P -> State P
}.

(** [Object.keys(accents).map((acc) => <button ...>)] in the render of
    state [s]. *)
Definition accent_buttons (s : State P) : list Button :=
  map (fun acc =>
         {| key := key_name acc;
            class := className (key_name acc) (key_name (accent s));
            children := label (key_name acc);
            onClick := handleAccentChange acc |})
      keys.

Definition setVoicePermissionsGranted (granted : bool) (s : State P) : State P :=
  {| city := city s; accent := accent s; weather := weather s;
     voicePermissionsGranted := granted;
     scheduleTime := scheduleTime s |}.

(** [requestVoicePermissions], clicked at [now]; [supported] is
    ['speechSynthesis' in window].  The voices [getVoices()] returns are
    dropped. *)
Definition requestVoicePermissions (supported : bool) (now : Z) (w : World P)
  : World P :=
  if supported
  then {| current := setVoicePermissionsGranted true (current w);
          timers := timers w;
          trace := trace w |}
  else log now (Alert "Speech synthesis not supported in this browser.") w.

(** A value that is not an object: [ToString] and [new Date] take it as
    it is. *)
Definition primitive (v : JSValue P) : bool :=
  match v with
  | JArray _ | JObject _ => false
  | _ => true
  end.

(** No timer of the world was armed in a render that holds a forecast. *)
Definition quiet (w : World P) : Prop :=
  weather (current w) = JArray []
  /\ Forall (fun tm => weather (render tm) = JArray []) (timers w).

(** How a value that is not an object prints in a template literal, and
    the time value [new Date] gives it. *)
Definition print (v : JSValue P) : string :=
  match v with
  | JUndefined => "undefined"
  | JNull => "null"
  | JBool true => "true"
  | JBool false => "false"
  | JNumber n => Number_toString P n
  | JString t => t
  | JArray _ | JObject _ => ""
  end.

Definition date_value (v : JSValue P) : option Z :=
  match v with
  | JNull => Some 0%Z
  | JBool true => Some 1%Z
  | JBool false => Some 0%Z
  | JNumber n => Number_TimeClip P n
  | JString t => Date_parse P t
  | JUndefined | JArray _ | JObject _ => None
  end.

(** The sentence for an object with these properties, a missing property
    being [undefined]. *)
Definition read_out (ps : list (string * JSValue P)) : string :=
  "On "
  ++ Date_toLocaleDateString P (date_value (or_undefined (lookup "date" ps)))
  ++ ", the temperature will be "
  ++ print (or_undefined (lookup "temperature" ps))
  ++ " degrees Celsius, feels like "
  ++ print (or_undefined (lookup "feels_like" ps))
  ++ " degrees, with "
  ++ print (or_undefined (lookup "description" ps)) ++ ".".

(** Two states that differ at most in the voice flag, and two timers
    due at the same instant for such renders. *)
Definition same_inputs (s s' : State P) : Prop :=
  city s = city s' /\ accent s = accent s' /\ weather s = weather s'
  /\ scheduleTime s = scheduleTime s'.

Definition same_timer (tm tm' : Timer P) : Prop :=
  due tm = due tm' /\ same_inputs (render tm) (render tm').

(** An upstream record whose four fields have the types of a slot. *)
Definition typed_record (item : JSValue P) (x : ForecastSlot P) : Prop :=
  Backend.field item "dt_txt" = JString (date x)
  /\ Backend.field (Backend.field item "main") "temp"
     = JNumber (temperature x)
  /\ Backend.field (Backend.field item "main") "feels_like"
     = JNumber (feltTemperature x)
  /\ Backend.field (Backend.first_of (Backend.field item "weather"))
                   "description"
     = JString (description x).

End App.
Arguments Button : clear implicits.
End View.

(** ** The records of the upstream provider *)

Module Upstream.
Section Records.
Context {P : Platform}.

(** What one entry of the provider's [list] tells: its timestamp, the
    mean and the felt temperature, and the description of its first weather
    condition. *)
Record Reading := {
  dt_txt : string;
  temp : number P;
  feels_like : number P;
  description : string
}.

(** [item] is an upstream record with the reading [r]: an object whose
    [dt_txt] is the timestamp, whose [main] is an object with the two
    temperatures, and whose [weather] is an array that starts with an
    object carrying the description.  The record may have any other
    property, and further weather conditions. *)
Inductive reads : JSValue P -> Reading -> Prop :=
| reads_intro : forall ps mps wps others r,
    lookup "dt_txt" ps = Some (JString (dt_txt r)) ->
    lookup "main" ps = Some (JObject mps) ->
    lookup "temp" mps = Some (JNumber (temp r)) ->
    lookup "feels_like" mps = Some (JNumber (feels_like r)) ->
    lookup "weather" ps = Some (JArray (JObject wps :: others)) ->
    lookup "description" wps = Some (JString (description r)) ->
    reads (JObject ps) r.

End Records.
Arguments Reading : clear implicits.
End Upstream.

(** ** A concrete host

    A host whose numbers are the integers and [NaN], whose clock is UTC
    and whose locale writes dates as month/day/year.  It reads the dates
    of a [datetime-local] field ([2024-01-26T09:30]) and of the upstream
    provider ([2024-01-26 09:00:00]).  The examples run on it. *)

Module UTC.

Definition digit (c : ascii) : option Z :=
  let n := nat_of_ascii c in
  if ((48 <=? n) && (n <=? 57))%nat then Some (Z.of_nat (n - 48)) else None.

Fixpoint digits_from (acc : Z) (s : string) : option Z :=
  match s with
  | EmptyString => Some acc
  | String c s' =>
      match digit c with
      | Some d => digits_from (10 * acc + d) s'
      | None => None
      end
  end.

Definition decimal (s : string) : option Z :=
  match s with
  | EmptyString => None
  | _ => digits_from 0 s
  end.

Definition days_from_civil (y m d : Z) : Z :=
  let y := (if m <=? 2 then y - 1 else y)%Z in
  let era := (y / 400)%Z in
  let yoe := (y - era * 400)%Z in
  let doy := ((153 * (if 2 <? m then m - 3 else m + 9) + 2) / 5 + d - 1)%Z in
  let doe := (yoe * 365 + yoe / 4 - yoe / 100 + doy)%Z in
  (era * 146097 + doe - 719468)%Z.

Definition civil_from_days (days : Z) : Z * Z * Z :=
  let z := (days + 719468)%Z in
  let era := (z / 146097)%Z in
  let doe := (z - era * 146097)%Z in
  let yoe := ((doe - doe / 1460 + doe / 36524 - doe / 146096) / 365)%Z in
  let doy := (doe - (365 * yoe + yoe / 4 - yoe / 100))%Z in
  let mp := ((5 * doy + 2) / 153)%Z in
  let d := (doy - (153 * mp + 2) / 5 + 1)%Z in
  let m := (if mp <? 10 then mp + 3 else mp - 9)%Z in
  ((yoe + era * 400 + (if m <=? 2 then 1 else 0))%Z, m, d).

Definition in_range (lo x hi : Z) : bool := ((lo <=? x) && (x <=? hi))%Z.

Definition parse (s : string) : option Z :=
  let sep := substring 10 1 s in
  let rest := substring 16 (String.length s - 16) s in
  match decimal (substring 0 4 s), decimal (substring 5 2 s),
        decimal (substring 8 2 s), decimal (substring 11 2 s),
        decimal (substring 14 2 s) with
  | Some y, Some m, Some d, Some hh, Some mm =>
      let shape :=
        String.eqb (substring 4 1 s) "-" && String.eqb (substring 7 1 s) "-"
        && (String.eqb sep "T" || String.eqb sep " ")
        && String.eqb (substring 13 1 s) ":" in
      let seconds :=
        if String.eqb rest "" then Some 0%Z
        else if String.eqb (substring 0 1 rest) ":"
                && Nat.eqb (String.length rest) 3
             then decimal (substring 1 2 rest) else None in
      match seconds with
      | Some ss =>
          if shape && in_range 1 m 12 && in_range 1 d 31 && in_range 0 hh 23
             && in_range 0 mm 59 && in_range 0 ss 59
          then Some (((days_from_civil y m d * 24 + hh) * 60 + mm) * 60000
                     + ss * 1000)%Z
          else None
      | None => None
      end
  | _, _, _, _, _ => None
  end.

Definition show (z : Z) : string := NilEmpty.string_of_int (Z.to_int z).

Definition toLocaleDateString (t : option Z) : string :=
  match t with
  | None => "Invalid Date"
  | Some ms =>
      let '(y, m, d) := civil_from_days (ms / 86400000) in
      show m ++ "/" ++ show d ++ "/" ++ show y
  end.

Definition host : Platform :=
  {| number := option Z;
     Number_toString := fun n =>
       match n with Some z => show z | None => "NaN" end;
     StringToNumber := fun s =>
       match s with EmptyString => Some 0%Z | _ => decimal s end;
     Number_gt0 := fun n =>
       match n with Some z => (0 <? z)%Z | None => false end;
     Number_TimeClip := fun n =>
       match n with
       | Some z => if (Z.abs z <=? 8640000000000000)%Z then Some z else None
       | None => None
       end;
     Date_parse := parse;
     Date_toLocaleDateString := toLocaleDateString;
     Date_parse_empty := eq_refl |}.

End UTC.

(** ** Sample data on the concrete host *)

Module Samples.
Import Frontend.

Definition London (time : string) : World UTC.host :=
  {| current := setScheduleTime time initial_state;
     timers := [];
     trace := [] |}.

Definition new_year : Z := 1704067200000.

(** The component after a forecast has been stored. *)
Definition two_slots : list (ForecastSlot UTC.host) :=
  [ @Build_ForecastSlot UTC.host
      "2024-01-01 00:00:00" (Some 4%Z) (Some 1%Z) "light rain";
    @Build_ForecastSlot UTC.host
      "2024-01-02 03:00:00" (Some 3%Z) (Some (-1)%Z) "overcast clouds" ].

Definition with_forecast : State UTC.host :=
  setWeather (bundle_value two_slots) initial_state.

Definition uk_male : SpeechSynthesisVoice :=
  {| voiceURI := "Google UK English Male";
     name := "Google UK English Male";
     lang := "en-GB" |}.

Definition us_female : SpeechSynthesisVoice :=
  {| voiceURI := "Google US English Female";
     name := "Google US English Female";
     lang := "en-US" |}.

Definition announcement : string :=
  "Here is the weather for the next 5 days in London."
  ++ "On 1/1/2024, the temperature will be 4 degrees Celsius, "
  ++ "feels like 1 degrees, with light rain. "
  ++ "On 1/2/2024, the temperature will be 3 degrees Celsius, "
  ++ "feels like -1 degrees, with overcast clouds.".

(** A browser whose requests fail, and one that receives the two slots. *)
Definition offline : Browser UTC.host :=
  {| fetch := fun _ _ => NetworkError;
     getVoices := fun _ => [us_female; uk_male] |}.

Definition online : Browser UTC.host :=
  {| fetch := fun _ _ => Json (bundle_value two_slots);
     getVoices := fun _ => [us_female; uk_male] |}.

(** An upstream provider that knows London and answers with [k] records,
    three hours apart. *)
Definition num (z : Z) : JSValue UTC.host := @JNumber UTC.host (Some z).

Definition two_digits (n : nat) : string :=
  (if (n <? 10)%nat then "0" else "") ++ UTC.show (Z.of_nat n).

Definition upstream_record (i : nat) : JSValue UTC.host :=
  JObject
    [("dt", num (1704067200 + 10800 * Z.of_nat i));
     ("main", JObject [("temp", num (Z.of_nat i));
                       ("feels_like", num (Z.of_nat i - 2));
                       ("humidity", num 80)]);
     ("weather", JArray [JObject [("id", num 500);
                                  ("main", JString "Rain");
                                  ("description", JString "light rain")]]);
     ("dt_txt", JString ("2024-01-0" ++ UTC.show (Z.of_nat (1 + i / 8))
                         ++ " " ++ two_digits (3 * (i mod 8)) ++ ":00:00"))].

Definition upstream_list (k : nat) : list (JSValue UTC.host) :=
  map upstream_record (seq 0 k).

Definition provider (k : nat) (url : string) : Backend.axios_result UTC.host :=
  if String.eqb url (Backend.forecast_url "London")
  then Backend.Fulfilled
         (JObject [("cod", JString "200");
                   ("cnt", num (Z.of_nat k));
                   ("list", JArray (upstream_list k))])
  else Backend.BadStatus 404
         (JObject [("cod", JString "404");
                   ("message", JString "city not found")]).

(** A provider whose list has a [null] after 45 records. *)
Definition trailing_null (url : string) : Backend.axios_result UTC.host :=
  Backend.Fulfilled
    (JObject [("list", JArray (upstream_list 45 ++ [JNull]))]).

(** The slots of the first [k] upstream records. *)
Definition upstream_bundle (k : nat) : list (ForecastSlot UTC.host) :=
  map (fun i =>
         @Build_ForecastSlot UTC.host
           ("2024-01-0" ++ UTC.show (Z.of_nat (1 + i / 8))
            ++ " " ++ two_digits (3 * (i mod 8)) ++ ":00:00")
           (Some (Z.of_nat i)) (Some (Z.of_nat i - 2)%Z) "light rain")
      (seq 0 k).

(** A stored array with a [null] between two slots. *)
Definition with_null : State UTC.host :=
  setWeather
    (JArray (map slot_value (firstn 1 two_slots)
             ++ [JNull] ++ map slot_value (skipn 1 two_slots)))
    initial_state.

(** A browser to which the endpoint answers with its error body. *)
Definition failing_server : Browser UTC.host :=
  {| fetch := fun _ _ => Json (Backend.body Backend.error_response);
     getVoices := fun _ => [us_female; uk_male] |}.

(** The readings of the first [k] upstream records. *)
Definition upstream_readings (k : nat) : list (Upstream.Reading UTC.host) :=
  map (fun i =>
         @Upstream.Build_Reading UTC.host
           ("2024-01-0" ++ UTC.show (Z.of_nat (1 + i / 8))
            ++ " " ++ two_digits (3 * (i mod 8)) ++ ":00:00")
           (Some (Z.of_nat i)) (Some (Z.of_nat i - 2)%Z) "light rain")
      (seq 0 k).

(** The user picks a schedule time. *)
Definition pick_time (value : string) (w : World UTC.host) : World UTC.host :=
  {| current := setScheduleTime value (current w);
     timers := timers w;
     trace := trace w |}.

(** A browser that receives the two slots during the first two minutes of
    the year, an empty list during the next two, and nothing afterwards. *)
Definition fickle : Browser UTC.host :=
  {| fetch := fun t _ =>
       if (t <? new_year + 120000)%Z then Json (bundle_value two_slots)
       else if (t <? new_year + 240000)%Z then Json (JArray [])
       else NetworkError;
     getVoices := fun _ => [us_female; uk_male] |}.

(** At 00:00 the announcement is scheduled for 00:01; once it has run, two
    more are scheduled, for 00:03 and for 00:05.  [at_three] is the world
    at 00:03 and [at_five] the world at 00:05. *)
Definition at_one : World UTC.host :=
  advance fickle (new_year + 60000)
    (scheduleSpeech new_year (London "2024-01-01T00:01")).

Definition at_two : World UTC.host :=
  scheduleSpeech (new_year + 100000)
    (pick_time "2024-01-01T00:05"
       (scheduleSpeech (new_year + 90000)
          (pick_time "2024-01-01T00:03" at_one))).

Definition at_three : World UTC.host := advance fickle (new_year + 180000) at_two.

Definition at_five : World UTC.host := advance fickle (new_year + 300000) at_three.

(** A stored array whose only slot has a [null] temperature and neither
    felt temperature nor description. *)
Definition gaps : list (string * JSValue UTC.host) :=
  [("date", JString "2024-01-01 00:00:00"); ("temperature", JNull)].

Definition with_gaps : State UTC.host :=
  setWeather (JArray (map JObject [gaps])) initial_state.

End Samples.

(** * Properties *)

(** ** The concrete host *)

Example utc_parse_local : UTC.parse "2024-01-26T09:30" = Some 1706261400000%Z.
Proof. reflexivity. Qed.

Example utc_parse_upstream : UTC.parse "2024-01-01 00:00:00" = Some 1704067200000%Z.
Proof. reflexivity. Qed.

Example utc_locale : UTC.toLocaleDateString (Some 1706261400000%Z) = "1/26/2024".
Proof. reflexivity. Qed.

(** ** The completion monad and lists *)

Lemma mapM_total {A B} (f : A -> completion B) (g : A -> B) (xs : list A) :
  (forall x, In x xs -> f x = Normal (g x)) ->
  mapM f xs = Normal (map g xs).
Proof.
  induction xs as [|x xs IH]; intros Hf; simpl.
  - reflexivity.
  - rewrite (Hf x (or_introl eq_refl)); simpl.
    rewrite IH; [reflexivity|].
    intros y Hy. apply Hf. now right.
Qed.

Lemma mapM_length {A B} (f : A -> completion B) (xs : list A) (ys : list B) :
  mapM f xs = Normal ys -> length ys = length xs.
Proof.
  revert ys. induction xs as [|x xs IH]; intros ys; simpl.
  - intros [= <-]. reflexivity.
  - destruct (f x) as [y|]; simpl; [|discriminate].
    destruct (mapM f xs) as [ys'|]; simpl; [|discriminate].
    intros [= <-]. simpl. now rewrite (IH ys' eq_refl).
Qed.

Lemma nth_error_map_firstn {A B} (g : A -> B) (n i : nat) (xs : list A) :
  i < n ->
  nth_error (map g (firstn n xs)) i = option_map g (nth_error xs i).
Proof.
  intros Hi. rewrite nth_error_map. f_equal.
  revert i xs Hi. induction n as [|n IH]; intros i xs Hi; [lia|].
  destruct xs as [|x xs]; [now destruct i|].
  destruct i as [|i]; simpl; [reflexivity|]. apply IH. lia.
Qed.

Lemma string_app_assoc (a b c : string) : (a ++ b) ++ c = a ++ b ++ c.
Proof. induction a as [|x a IH]; simpl; [reflexivity|now rewrite IH]. Qed.

(** ** The aggregator *)

Module BackendProps.
Import Backend Samples.
Section Handler.
Context {P : Platform}.

Lemma Get_field (v : JSValue P) (k : string) :
  nullish v = false -> Get v k = Normal (field v k).
Proof. destruct v; simpl; try discriminate; reflexivity. Qed.

Lemma forecast_slot_record (item : JSValue P) :
  is_record item = true -> forecast_slot item = Normal (slot_of item).
Proof.
  destruct item as [| | | | | |ps]; try discriminate.
  unfold is_record. intros H. apply andb_prop in H as [Hmain Hfirst].
  apply negb_true_iff in Hmain.
  destruct (GetIndex (or_undefined (lookup "weather" ps)) 0)
    as [first|] eqn:Ew; [|discriminate].
  apply negb_true_iff in Hfirst.
  unfold forecast_slot, slot_of, slot_object, extract, first_of.
  cbn [Get bind field]. rewrite Ew.
  destruct (or_undefined (lookup "main" ps)); try discriminate;
    cbn [Get bind field];
    destruct first; try discriminate; reflexivity.
Qed.

Lemma try_block_records (data : JSValue P) (recs : list (JSValue P)) :
  field data "list" = JArray recs ->
  forallb is_record (firstn 40 recs) = true ->
  try_block data = Normal (map slot_of (firstn 40 recs)).
Proof.
  intros Hlist Hrec.
  destruct data as [| | | | | |ps]; try discriminate.
  unfold try_block. simpl in Hlist |- *. rewrite Hlist.
  change (5 * 8) with 40. simpl call_slice. cbv beta iota. unfold call_map.
  apply mapM_total. intros x Hx. apply forecast_slot_record.
  rewrite forallb_forall in Hrec. now apply Hrec.
Qed.

Lemma handler_records (axios_get : string -> axios_result P) (city : string) (recs : list (JSValue P)) :
  returns_list (axios_get (forecast_url city)) recs ->
  forallb is_record (firstn 40 recs) = true ->
  weather_handler axios_get city = ok_response (map slot_of (firstn 40 recs)).
Proof.
  intros (data & Hr & Hlist) Hrec. unfold weather_handler. rewrite Hr.
  now rewrite (try_block_records data recs Hlist Hrec).
Qed.

Lemma forallb_firstn {A} (p : A -> bool) (n : nat) (xs : list A) :
  forallb p xs = true -> forallb p (firstn n xs) = true.
Proof.
  rewrite !forallb_forall. intros H x Hx. apply H.
  rewrite <- (firstn_skipn n xs). apply in_or_app. now left.
Qed.

Lemma reads_slot (item : JSValue P) (r : Upstream.Reading P) :
  Upstream.reads item r ->
  forecast_slot item
  = Normal (JObject [("date", JString (Upstream.dt_txt r));
                     ("temperature", JNumber (Upstream.temp r));
                     ("description", JString (Upstream.description r));
                     ("feels_like", JNumber (Upstream.feels_like r))]).
Proof.
  intros [ps mps wps others r' Hdt Hmain Htemp Hfeels Hweather Hdesc].
  unfold forecast_slot. cbn [Get bind].
  rewrite Hdt, Hmain, Hweather. cbn [or_undefined Get GetIndex bind nth_error].
  now rewrite Htemp, Hfeels, Hdesc.
Qed.

Lemma reads_slots (recs : list (JSValue P))
      (readings : list (Upstream.Reading P)) :
  Forall2 Upstream.reads recs readings ->
  mapM forecast_slot recs
  = Normal (map (fun r =>
                   JObject [("date", JString (Upstream.dt_txt r));
                            ("temperature", JNumber (Upstream.temp r));
                            ("description", JString (Upstream.description r));
                            ("feels_like", JNumber (Upstream.feels_like r))])
                readings).
Proof.
  induction 1 as [|item r recs readings Hr _ IH]; simpl; [reflexivity|].
  now rewrite (reads_slot item r Hr), IH.
Qed.

Lemma Forall2_take {A B} (R : A -> B -> Prop) (n : nat) (xs : list A)
      (ys : list B) :
  Forall2 R xs ys -> Forall2 R (firstn n xs) (firstn n ys).
Proof.
  intros H. revert n. induction H as [|x y xs ys Hxy _ IH]; intros n.
  - rewrite !firstn_nil. apply Forall2_nil.
  - destruct n as [|n]; simpl; [apply Forall2_nil|].
    apply Forall2_cons; [exact Hxy|apply IH].
Qed.

Lemma Forall2_nth {A B} (R : A -> B -> Prop) (xs : list A) (ys : list B) :
  Forall2 R xs ys ->
  forall i, i < length xs ->
    exists x y, nth_error xs i = Some x /\ nth_error ys i = Some y /\ R x y.
Proof.
  induction 1 as [|x y xs ys Hxy _ IH]; intros i Hi; simpl in Hi; [lia|].
  destruct i as [|i]; simpl.
  - now exists x, y.
  - apply IH. lia.
Qed.

Lemma nth_error_firstn_lt {A} (n i : nat) (xs : list A) :
  i < n -> nth_error (firstn n xs) i = nth_error xs i.
Proof.
  revert i xs. induction n as [|n IH]; intros i xs Hi; [lia|].
  destruct xs as [|x xs]; [now destruct i|].
  destruct i as [|i]; simpl; [reflexivity|]. apply IH. lia.
Qed.

(** The answer to a body whose [list] holds upstream records: status 200
    and, as body, the slots of the first 40 readings. *)
Lemma handler_readings (axios_get : string -> axios_result P) (city : string)
      (ps : list (string * JSValue P)) (recs : list (JSValue P))
      (readings : list (Upstream.Reading P)) :
  axios_get (forecast_url city) = Fulfilled (JObject ps) ->
  lookup "list" ps = Some (JArray recs) ->
  Forall2 Upstream.reads recs readings ->
  status (weather_handler axios_get city) = 200
  /\ body (weather_handler axios_get city)
     = JArray (map (fun r =>
                      JObject
                        [("date", JString (Upstream.dt_txt r));
                         ("temperature", JNumber (Upstream.temp r));
                         ("description", JString (Upstream.description r));
                         ("feels_like", JNumber (Upstream.feels_like r))])
                   (firstn 40 readings)).
Proof.
  intros Hget Hlist Hreads. unfold weather_handler. rewrite Hget.
  unfold try_block. cbn [Get bind]. rewrite Hlist.
  cbn [or_undefined call_slice bind call_map].
  change (5 * 8) with 40.
  rewrite (reads_slots _ _ (Forall2_take _ 40 _ _ Hreads)).
  split; reflexivity.
Qed.

(** C1.  Whatever the city, when the provider answers with a list of
    [K >= 40] records, the endpoint answers with status 200 and a body
    that is an array of exactly 40 slots; the slot at each position [i]
    is made from the record at position [i] of the upstream list: its
    [date] is the record's [dt_txt], its [temperature] the record's
    [main.temp], its [feels_like] the record's [main.feels_like] and its
    [description] the description of the first entry of the record's
    [weather]. *)
Theorem weather_first_forty (axios_get : string -> axios_result P)
        (city : string) (ps : list (string * JSValue P))
        (recs : list (JSValue P)) (readings : list (Upstream.Reading P)) :
  axios_get (forecast_url city) = Fulfilled (JObject ps) ->
  lookup "list" ps = Some (JArray recs) ->
  Forall2 Upstream.reads recs readings ->
  40 <= length recs ->
  status (weather_handler axios_get city) = 200
  /\ exists slots,
       body (weather_handler axios_get city) = JArray slots
       /\ length slots = 40
       /\ forall i, i < 40 ->
            exists item r,
              nth_error recs i = Some item
              /\ Upstream.reads item r
              /\ nth_error slots i
                 = Some (JObject
                           [("date", JString (Upstream.dt_txt r));
                            ("temperature", JNumber (Upstream.temp r));
                            ("description", JString (Upstream.description r));
                            ("feels_like", JNumber (Upstream.feels_like r))]).
Proof.
  intros Hget Hlist Hreads HK.
  destruct (handler_readings axios_get city ps recs readings Hget Hlist Hreads)
    as [Hstatus Hbody].
  split; [exact Hstatus|]. eexists. split; [exact Hbody|].
  pose proof (Forall2_length Hreads) as Hlen.
  split.
  - rewrite length_map, length_firstn. lia.
  - intros i Hi.
    destruct (Forall2_nth _ _ _ Hreads i) as (item & r & Hitem & Hr & HR);
      [lia|].
    exists item, r. repeat split; try assumption.
    rewrite nth_error_map, nth_error_firstn_lt by exact Hi.
    now rewrite Hr.
Qed.

(** C4.  Whatever the city, when the provider answers with a list of
    [K < 40] records, the endpoint answers with status 200, not with an
    error, and a body that is an array of exactly [K] slots: the slot at
    each position is made from the record at that position, and there is
    no slot beyond the last record. *)
Theorem weather_short_list (axios_get : string -> axios_result P)
        (city : string) (ps : list (string * JSValue P))
        (recs : list (JSValue P)) (readings : list (Upstream.Reading P)) :
  axios_get (forecast_url city) = Fulfilled (JObject ps) ->
  lookup "list" ps = Some (JArray recs) ->
  Forall2 Upstream.reads recs readings ->
  length recs < 40 ->
  status (weather_handler axios_get city) = 200
  /\ exists slots,
       body (weather_handler axios_get city) = JArray slots
       /\ length slots = length recs
       /\ forall i, i < length recs ->
            exists item r,
              nth_error recs i = Some item
              /\ Upstream.reads item r
              /\ nth_error slots i
                 = Some (JObject
                           [("date", JString (Upstream.dt_txt r));
                            ("temperature", JNumber (Upstream.temp r));
                            ("description", JString (Upstream.description r));
                            ("feels_like", JNumber (Upstream.feels_like r))]).
Proof.
  intros Hget Hlist Hreads HK.
  destruct (handler_readings axios_get city ps recs readings Hget Hlist Hreads)
    as [Hstatus Hbody].
  split; [exact Hstatus|]. eexists. split; [exact Hbody|].
  pose proof (Forall2_length Hreads) as Hlen.
  split.
  - rewrite length_map, length_firstn. lia.
  - intros i Hi.
    destruct (Forall2_nth _ _ _ Hreads i Hi) as (item & r & Hitem & Hr & HR).
    exists item, r. repeat split; try assumption.
    rewrite nth_error_map, nth_error_firstn_lt by lia.
    now rewrite Hr.
Qed.

(** Every answer is the error response or a complete one: a 200 carries a
    slot for each of the first 40 entries of the list. *)
Lemma handler_all_or_nothing (axios_get : string -> axios_result P) (city : string) :
  weather_handler axios_get city = error_response
  \/ exists data recs slots,
       axios_get (forecast_url city) = Fulfilled data
       /\ Get data "list" = Normal (JArray recs)
       /\ mapM forecast_slot (firstn 40 recs) = Normal slots
       /\ length slots = Nat.min 40 (length recs)
       /\ weather_handler axios_get city = ok_response slots.
Proof.
  unfold weather_handler.
  destruct (axios_get (forecast_url city)) as [| |data]; auto.
  destruct (try_block data) as [slots|] eqn:Etry; auto.
  right. unfold try_block in Etry.
  destruct (Get data "list") as [l|] eqn:El; simpl in Etry; [|discriminate].
  destruct l as [| | | | |recs|]; simpl in Etry; try discriminate.
  exists data, recs, slots.
  change (mapM forecast_slot (firstn 40 recs) = Normal slots) in Etry.
  repeat split; auto.
  rewrite (mapM_length _ _ _ Etry). apply length_firstn.
Qed.

Lemma forecast_slot_not_record (item : JSValue P) :
  is_record item = false -> forecast_slot item = Throw.
Proof.
  destruct item as [| | | | | |ps]; try reflexivity.
  unfold is_record, forecast_slot. cbn [Get bind].
  destruct (or_undefined (lookup "main" ps)); try reflexivity;
    cbn [Get bind nullish negb andb];
    (destruct (GetIndex (or_undefined (lookup "weather" ps)) 0)
       as [first|]; [|reflexivity]);
    destruct first; cbn [Get bind nullish negb]; try discriminate;
    reflexivity.
Qed.

Lemma mapM_throw {A B} (f : A -> completion B) (p : A -> bool) (xs : list A) :
  (forall x, p x = false -> f x = Throw) ->
  forallb p xs = false -> mapM f xs = Throw.
Proof.
  intros Hf. induction xs as [|x xs IH]; simpl; [discriminate|].
  intros H. apply andb_false_iff in H as [Hx|Hxs].
  - now rewrite (Hf x Hx).
  - rewrite (IH Hxs). now destruct (f x).
Qed.

Lemma try_block_no_list (data : JSValue P) :
  (forall recs, field data "list" <> JArray recs) -> try_block data = Throw.
Proof.
  intros Hlist. unfold try_block.
  destruct data as [| | | | | |ps]; try reflexivity.
  simpl in Hlist |- *.
  destruct (or_undefined (lookup "list" ps)) as [| | | | |recs|];
    try reflexivity.
  now destruct (Hlist recs).
Qed.

Lemma try_block_bad_record (data : JSValue P) (recs : list (JSValue P)) :
  field data "list" = JArray recs ->
  forallb is_record (firstn 40 recs) = false ->
  try_block data = Throw.
Proof.
  intros Hlist Hrec.
  destruct data as [| | | | | |ps]; try discriminate.
  unfold try_block. simpl in Hlist |- *. rewrite Hlist.
  change (5 * 8) with 40. simpl call_slice. cbv beta iota. unfold call_map.
  exact (mapM_throw forecast_slot is_record _ forecast_slot_not_record Hrec).
Qed.

(** C2.  On every upstream failure (no response, status outside 2xx,
    malformed body) the endpoint answers with status 500 and the one fixed
    error body, the same for every failure; no forecast is sent, not even
    in part. *)
Theorem weather_upstream_failure (axios_get : string -> axios_result P) (city : string) :
  upstream_failure (axios_get (forecast_url city)) ->
  weather_handler axios_get city = error_response
  /\ status (weather_handler axios_get city) = 500
  /\ body (weather_handler axios_get city)
     = JObject [("error", JString "Error fetching weather data")].
Proof.
  intros Hfail.
  assert (H : weather_handler axios_get city = error_response).
  { unfold weather_handler.
    destruct Hfail as [| | |data Hlist|data recs Hlist Hrec];
      try reflexivity.
    - now rewrite (try_block_no_list data Hlist).
    - now rewrite (try_block_bad_record data recs Hlist Hrec). }
  rewrite H. repeat split.
Qed.

End Handler.

(** *** On the concrete host *)

Example upstream_record_slot :
  forecast_slot (upstream_record 9)
  = Normal (JObject [("date", JString "2024-01-02 03:00:00");
                     ("temperature", num 9);
                     ("description", JString "light rain");
                     ("feels_like", num 7)]).
Proof. reflexivity. Qed.

Lemma upstream_list_reads (k : nat) :
  Forall2 Upstream.reads (upstream_list k) (upstream_readings k).
Proof.
  unfold upstream_list, upstream_readings.
  induction (seq 0 k) as [|i l IH]; simpl; [apply Forall2_nil|].
  apply Forall2_cons; [|exact IH].
  eapply Upstream.reads_intro; reflexivity.
Defined.

Lemma weather_first_forty_witness :
  provider 41 (forecast_url "London")
  = Fulfilled (JObject [("cod", JString "200"); ("cnt", num 41);
                        ("list", JArray (upstream_list 41))])
  /\ Forall2 Upstream.reads (upstream_list 41) (upstream_readings 41)
  /\ 40 <= length (upstream_list 41)
  /\ status (weather_handler (provider 41) "London") = 200
  /\ exists slots,
       body (weather_handler (provider 41) "London") = JArray slots
       /\ length slots = 40.
Proof.
  assert (H1 : provider 41 (forecast_url "London")
               = Fulfilled (JObject [("cod", JString "200"); ("cnt", num 41);
                                     ("list", JArray (upstream_list 41))]))
    by reflexivity.
  assert (H3 : 40 <= length (upstream_list 41)) by (simpl; lia).
  split; [exact H1|split; [exact (upstream_list_reads 41)|split; [exact H3|]]].
  destruct (weather_first_forty (provider 41) "London" _
              (upstream_list 41) (upstream_readings 41)
              H1 eq_refl (upstream_list_reads 41) H3)
    as (Hstatus & slots & Hbody & Hlen & _).
  split; [exact Hstatus|]. exists slots. split; assumption.
Defined.

Lemma weather_short_list_witness :
  provider 3 (forecast_url "London")
  = Fulfilled (JObject [("cod", JString "200"); ("cnt", num 3);
                        ("list", JArray (upstream_list 3))])
  /\ Forall2 Upstream.reads (upstream_list 3) (upstream_readings 3)
  /\ length (upstream_list 3) < 40
  /\ status (weather_handler (provider 3) "London") = 200
  /\ exists slots,
       body (weather_handler (provider 3) "London") = JArray slots
       /\ length slots = 3.
Proof.
  assert (H1 : provider 3 (forecast_url "London")
               = Fulfilled (JObject [("cod", JString "200"); ("cnt", num 3);
                                     ("list", JArray (upstream_list 3))]))
    by reflexivity.
  assert (H3 : length (upstream_list 3) < 40) by (simpl; lia).
  split; [exact H1|split; [exact (upstream_list_reads 3)|split; [exact H3|]]].
  destruct (weather_short_list (provider 3) "London" _
              (upstream_list 3) (upstream_readings 3)
              H1 eq_refl (upstream_list_reads 3) H3)
    as (Hstatus & slots & Hbody & Hlen & _).
  split; [exact Hstatus|]. exists slots. split; assumption.
Defined.

Example three_slots_sent :
  body (weather_handler (provider 3) "London")
  = JArray [JObject [("date", JString "2024-01-01 00:00:00");
                     ("temperature", num 0);
                     ("description", JString "light rain");
                     ("feels_like", num (-2))];
            JObject [("date", JString "2024-01-01 03:00:00");
                     ("temperature", num 1);
                     ("description", JString "light rain");
                     ("feels_like", num (-1))];
            JObject [("date", JString "2024-01-01 06:00:00");
                     ("temperature", num 2);
                     ("description", JString "light rain");
                     ("feels_like", num 0)]].
Proof. reflexivity. Qed.

Lemma weather_upstream_failure_witness :
  upstream_failure (provider 40 (forecast_url "Atlantis"))
  /\ weather_handler (provider 40) "Atlantis" = error_response.
Proof.
  assert (H : upstream_failure (provider 40 (forecast_url "Atlantis")))
    by (apply non_2xx; right; lia).
  split; [exact H|].
  exact (proj1 (weather_upstream_failure (provider 40) "Atlantis" H)).
Defined.

End BackendProps.

(** ** The announcement scheduler *)

Module FrontendProps.
Import Frontend Samples.
Section App.
Context {P : Platform}.

Implicit Types (w : World P) (s : State P) (b : Browser P).

(** *** Reading a trace *)

Lemma fetches_app (tr1 tr2 : list (Z * Event)) :
  fetches (tr1 ++ tr2) = (fetches tr1 ++ fetches tr2)%list.
Proof.
  induction tr1 as [|[t e] tr1 IH]; simpl; [reflexivity|].
  destruct e; simpl; now rewrite IH.
Qed.

Lemma spoken_app (tr1 tr2 : list (Z * Event)) :
  spoken (tr1 ++ tr2) = (spoken tr1 ++ spoken tr2)%list.
Proof.
  induction tr1 as [|[t e] tr1 IH]; simpl; [reflexivity|].
  destruct e; simpl; now rewrite IH.
Qed.

Lemma armed_app (tr1 tr2 : list (Z * Event)) :
  armed (tr1 ++ tr2) = (armed tr1 ++ armed tr2)%list.
Proof.
  induction tr1 as [|[t e] tr1 IH]; simpl; [reflexivity|].
  destruct e; simpl; now rewrite IH.
Qed.

(** *** One timer callback *)

Lemma callback_unfold b now s w :
  callback b now s w
  = {| current := callback_state b now s (current w);
       timers := timers w;
       trace := (trace w ++ callback_events b now s)%list |}.
Proof.
  unfold callback, callback_events, callback_state, fetchWeather, log.
  destruct (fetch b now (weather_url (city s)));
    destruct (speakWeather (getVoices b now) s) as [[u|]|];
    simpl; rewrite <- ?app_assoc; simpl; try reflexivity;
    destruct w; simpl; now rewrite ?app_nil_r.
Qed.

Lemma callback_fetches b now s :
  fetches (callback_events b now s) = [(now, weather_url (city s))].
Proof.
  unfold callback_events. simpl. f_equal.
  rewrite fetches_app.
  destruct (fetch b now (weather_url (city s)));
    destruct (speakWeather (getVoices b now) s) as [[u|]|]; reflexivity.
Qed.

(** *** The event loop *)

Lemma run_timers b ready : forall w, timers (run b ready w) = timers w.
Proof.
  unfold run.
  induction ready as [|tm ready IH]; intros w; simpl; [reflexivity|].
  rewrite IH. now rewrite callback_unfold.
Qed.

Lemma run_fetches b ready : forall w,
  fetches (trace (run b ready w))
  = (fetches (trace w)
     ++ map (fun tm => (due tm, weather_url (city (render tm)))) ready)%list.
Proof.
  unfold run.
  induction ready as [|tm ready IH]; intros w; simpl.
  - now rewrite app_nil_r.
  - rewrite IH, callback_unfold. simpl.
    rewrite fetches_app, callback_fetches, <- app_assoc. reflexivity.
Qed.

Lemma advance_run b t w :
  advance b t w
  = run b (filter (fun tm => (due tm <=? t)%Z) (timers w))
        {| current := current w;
           timers := filter (fun tm => negb (due tm <=? t)%Z) (timers w);
           trace := trace w |}.
Proof. reflexivity. Qed.

Lemma advance_fetches b t w :
  fetches (trace (advance b t w))
  = (fetches (trace w)
     ++ map (fun tm => (due tm, weather_url (city (render tm))))
            (filter (fun tm => (due tm <=? t)%Z) (timers w)))%list.
Proof. rewrite advance_run, run_fetches. reflexivity. Qed.

Lemma advance_timers b t w :
  timers (advance b t w)
  = filter (fun tm => negb (due tm <=? t)%Z) (timers w).
Proof. rewrite advance_run, run_timers. reflexivity. Qed.

(** *** [scheduleSpeech] *)

Lemma log_advance_fetches b t now (e : Event) w :
  (forall url, e <> Fetch url) ->
  fetches (trace (advance b t (log now e w)))
  = fetches (trace (advance b t w)).
Proof.
  intros He. rewrite !advance_fetches. unfold log; simpl.
  rewrite fetches_app. simpl.
  destruct e; try (now rewrite app_nil_r). now destruct (He url).
Qed.

(** What a rejected click leaves behind. *)
Lemma rejected_effects (now : Z) w :
  timers (log now (Alert rejection) w) = timers w
  /\ armed (trace (log now (Alert rejection) w)) = armed (trace w)
  /\ forall b t,
       fetches (trace (advance b t (log now (Alert rejection) w)))
       = fetches (trace (advance b t w)).
Proof.
  repeat split.
  - unfold log; simpl. rewrite armed_app. simpl. now rewrite app_nil_r.
  - intros b t. apply log_advance_fetches. discriminate.
Qed.

(** C3.  When the target time is not strictly later than the current time,
    [scheduleSpeech] only shows the rejection message: it arms no timer,
    so the requests sent to the aggregator are, at every later instant,
    those that would have been sent without the click. *)
Theorem schedule_not_future_rejected (now target : Z) w :
  Date_parse P (scheduleTime (current w)) = Some target ->
  (target <= now)%Z ->
  scheduleSpeech now w = log now (Alert rejection) w
  /\ timers (scheduleSpeech now w) = timers w
  /\ armed (trace (scheduleSpeech now w)) = armed (trace w)
  /\ forall b t,
       fetches (trace (advance b t (scheduleSpeech now w)))
       = fetches (trace (advance b t w)).
Proof.
  intros Hparse Hle.
  assert (H : scheduleSpeech now w = log now (Alert rejection) w).
  { unfold scheduleSpeech. rewrite Hparse.
    destruct (Z.ltb_spec now target); [lia|reflexivity]. }
  rewrite H. split; [reflexivity|apply rejected_effects].
Qed.

(** C8.  When the schedule-time string is not a date, [scheduleSpeech]
    does what it does for a past time: it shows the rejection message and
    arms no timer.  The empty string, the initial value of the field, is
    such a string. *)
Theorem schedule_invalid_date_rejected (now : Z) w :
  Date_parse P (scheduleTime (current w)) = None ->
  scheduleSpeech now w = log now (Alert rejection) w
  /\ timers (scheduleSpeech now w) = timers w
  /\ armed (trace (scheduleSpeech now w)) = armed (trace w)
  /\ forall b t,
       fetches (trace (advance b t (scheduleSpeech now w)))
       = fetches (trace (advance b t w)).
Proof.
  intros Hparse.
  assert (H : scheduleSpeech now w = log now (Alert rejection) w).
  { unfold scheduleSpeech. now rewrite Hparse. }
  rewrite H. split; [reflexivity|apply rejected_effects].
Qed.

(** The empty schedule time is rejected on every platform. *)
Lemma schedule_empty_rejected (now : Z) w :
  scheduleTime (current w) = "" ->
  scheduleSpeech now w = log now (Alert rejection) w.
Proof.
  intros Hempty. unfold scheduleSpeech.
  now rewrite Hempty, Date_parse_empty.
Qed.

(** *** Arming the timer *)

Lemma to_long_small (d : Z) : (0 <= d < 2 ^ 31)%Z -> to_long d = d.
Proof.
  intros Hd. unfold to_long.
  rewrite Z.mod_small by lia.
  destruct (Z.ltb_spec d (2 ^ 31)); [reflexivity|lia].
Qed.

Lemma timeout_of_small (d : Z) :
  (0 < d <= 2147483647)%Z -> timeout_of d = d.
Proof.
  intros Hd. unfold timeout_of. rewrite to_long_small by lia. lia.
Qed.

Lemma schedule_future (now target : Z) w :
  Date_parse P (scheduleTime (current w)) = Some target ->
  (now < target)%Z ->
  scheduleSpeech now w = setTimeout now (current w) (target - now) w.
Proof.
  intros Hparse Hlt. unfold scheduleSpeech. rewrite Hparse.
  destruct (Z.ltb_spec now target); [reflexivity|lia].
Qed.

Lemma enqueue_length (tm : Timer P) (queue : list (Timer P)) :
  length (enqueue tm queue) = S (length queue).
Proof.
  induction queue as [|x queue IH]; simpl; [reflexivity|].
  destruct (due tm <? due x)%Z; simpl; now rewrite ?IH.
Qed.

Lemma filter_enqueue_length (p : Timer P -> bool) (tm : Timer P)
      (queue : list (Timer P)) :
  length (filter p (enqueue tm queue))
  = (if p tm then 1 else 0) + length (filter p queue).
Proof.
  induction queue as [|x queue IH]; simpl.
  - now destruct (p tm).
  - destruct (due tm <? due x)%Z; simpl.
    + now destruct (p tm).
    + destruct (p x); simpl; rewrite IH; destruct (p tm); simpl; lia.
Qed.

Lemma advance_fetch_count b t w :
  length (fetches (trace (advance b t w)))
  = length (fetches (trace w))
    + length (filter (fun tm => (due tm <=? t)%Z) (timers w)).
Proof. now rewrite advance_fetches, length_app, length_map. Qed.

(** X17.  Within the range of the timer ([delay <= 2^31 - 1] milliseconds,
    about 24.8 days) a click with a future target arms one timer with the delay
    [target - now]; its callback sends one request to the aggregator, at
    the target instant and not before, and the timer is then gone. *)
Lemma schedule_fires_once_in_range b (now delay : Z) w :
  Date_parse P (scheduleTime (current w)) = Some (now + delay)%Z ->
  (0 < delay <= 2147483647)%Z ->
  armed (trace (scheduleSpeech now w)) = (armed (trace w) ++ [delay])%list
  /\ length (timers (scheduleSpeech now w)) = S (length (timers w))
  /\ (forall t, (t < now + delay)%Z ->
        length (fetches (trace (advance b t (scheduleSpeech now w))))
        = length (fetches (trace (advance b t w))))
  /\ (forall t, (now + delay <= t)%Z ->
        length (fetches (trace (advance b t (scheduleSpeech now w))))
        = S (length (fetches (trace (advance b t w)))))
  /\ (timers w = [] ->
      forall t, (now + delay <= t)%Z ->
        fetches (trace (advance b t (scheduleSpeech now w)))
        = (fetches (trace w)
           ++ [((now + delay)%Z, weather_url (city (current w)))])%list
        /\ timers (advance b t (scheduleSpeech now w)) = []).
Proof.
  intros Hparse Hdelay.
  rewrite (schedule_future now (now + delay) w Hparse) by lia.
  replace (now + delay - now)%Z with delay by lia.
  unfold setTimeout. rewrite (timeout_of_small delay Hdelay).
  repeat split.
  - simpl. rewrite armed_app. reflexivity.
  - simpl. apply enqueue_length.
  - intros t Ht. rewrite !advance_fetch_count. simpl.
    rewrite fetches_app, filter_enqueue_length. simpl.
    rewrite app_nil_r.
    destruct (Z.leb_spec (now + delay) t); [lia|reflexivity].
  - intros t Ht. rewrite !advance_fetch_count. simpl.
    rewrite fetches_app, filter_enqueue_length. simpl.
    rewrite app_nil_r.
    destruct (Z.leb_spec (now + delay) t); [lia|lia].
  - rewrite advance_fetches. simpl. rewrite H. simpl.
    rewrite fetches_app. simpl. rewrite app_nil_r.
    destruct (Z.leb_spec (now + delay) t); [reflexivity|lia].
  - rewrite advance_timers. simpl. rewrite H. simpl.
    destruct (Z.leb_spec (now + delay) t); [reflexivity|lia].
Qed.

(** *** [fetchWeather] *)

(** C10.  When the fetch fails (the request is rejected, or the body of
    the response is not JSON), [fetchWeather] logs the error on the
    console and does nothing else: the state of the component, the
    forecast list included, is what it was. *)
Theorem fetch_failure_keeps_state b (now : Z) s w :
  fetch b now (weather_url (city s)) = NetworkError
  \/ fetch b now (weather_url (city s)) = NotJSON ->
  current (fetchWeather b now s w) = current w
  /\ weather (current (fetchWeather b now s w)) = weather (current w)
  /\ timers (fetchWeather b now s w) = timers w
  /\ trace (fetchWeather b now s w)
     = (trace w ++ [(now, Fetch (weather_url (city s)));
                    (now, ConsoleError "Error fetching weather:")])%list.
Proof.
  intros Hfail. unfold fetchWeather.
  destruct Hfail as [-> | ->]; simpl; rewrite <- app_assoc; auto.
Qed.

(** *** [speakWeather] *)

Lemma sentence_slot (x : ForecastSlot P) :
  sentence (slot_value x) = Normal (slot_sentence x).
Proof. reflexivity. Qed.

Lemma speakWeather_array voices s (items : list (JSValue P)) :
  weather s = JArray items ->
  items <> [] ->
  speakWeather voices s
  = (sentences <- mapM sentence items ;;
     Normal (Some {| text := intro (city s) ++ String.concat " " sentences;
                     voice := select_voice (accent s) voices |})).
Proof.
  intros Hw Hne. unfold speakWeather. rewrite Hw. simpl.
  destruct items; [contradiction|reflexivity].
Qed.

(** C7.  For every non-empty bundle, the utterance [speakWeather] submits
    is the intro sentence followed by one sentence per slot, in the order
    of the bundle, each of the form "On <date>, the temperature will be
    <temperature> degrees Celsius, feels like <felt temperature> degrees,
    with <description>."; consecutive slot sentences are separated by one
    space. *)
Theorem utterance_of_bundle voices s (bundle : list (ForecastSlot P)) :
  bundle <> [] ->
  weather s = bundle_value bundle ->
  exists u,
    speakWeather voices s = Normal (Some u)
    /\ text u
       = "Here is the weather for the next 5 days in " ++ city s ++ "."
         ++ String.concat " " (map slot_sentence bundle).
Proof.
  intros Hne Hw.
  exists {| text := intro (city s)
                    ++ String.concat " " (map slot_sentence bundle);
            voice := select_voice (accent s) voices |}.
  split.
  - rewrite (speakWeather_array voices s (map slot_value bundle) Hw).
    + rewrite (mapM_total sentence
                 (fun v => match sentence v with
                           | Normal t => t | Throw => "" end)).
      * simpl. rewrite map_map. reflexivity.
      * intros v Hv. apply in_map_iff in Hv as (x & <- & _).
        now rewrite sentence_slot.
    + destruct bundle; [contradiction|discriminate].
  - unfold intro. simpl. now rewrite string_app_assoc.
Qed.

Lemma speakWeather_voice voices s (u : SpeechSynthesisUtterance) :
  speakWeather voices s = Normal (Some u) ->
  voice u = select_voice (accent s) voices
  /\ forall voices',
       speakWeather voices' s
       = Normal (Some {| text := text u;
                         voice := select_voice (accent s) voices' |}).
Proof.
  unfold speakWeather.
  destruct (length_gt0 (weather s)) as [[|]|]; simpl; try discriminate.
  destruct (call_map sentence (weather s)) as [sentences|]; simpl;
    [|discriminate].
  intros [= <-]. simpl. auto.
Qed.

(** C6.  Whatever the accent key and the voice list, an utterance that
    [speakWeather] submits carries the first voice of the list whose name
    is exactly the table's entry for the key, when the list has one; when
    it has none, the utterance carries no voice, which lets the platform
    use its default, and it is submitted all the same: the voice list
    never turns a submitted utterance into an error. *)
Theorem accent_voice_selection voices s (u : SpeechSynthesisUtterance) :
  speakWeather voices s = Normal (Some u) ->
  ((exists v, In v voices /\ name v = accents (accent s)) ->
   exists v, voice u = Some v /\ In v voices /\ name v = accents (accent s))
  /\ ((forall v, In v voices -> name v <> accents (accent s)) ->
      voice u = None)
  /\ voice u = find (fun v => String.eqb (name v) (accents (accent s))) voices
  /\ forall voices',
       exists u', speakWeather voices' s = Normal (Some u')
                  /\ text u' = text u.
Proof.
  intros Hspeak.
  destruct (speakWeather_voice voices s u Hspeak) as [Hvoice Hany].
  unfold select_voice in Hvoice. rewrite Hvoice.
  repeat split.
  - intros (v & Hin & Hname).
    destruct (find (fun v => String.eqb (name v) (accents (accent s))) voices)
      as [v'|] eqn:Efind.
    + apply find_some in Efind as [Hin' Heq].
      apply String.eqb_eq in Heq. now exists v'.
    + apply (find_none _ _ Efind) in Hin.
      apply String.eqb_neq in Hin. contradiction.
  - intros Hnone.
    destruct (find (fun v => String.eqb (name v) (accents (accent s))) voices)
      as [v'|] eqn:Efind; [|reflexivity].
    apply find_some in Efind as [Hin' Heq].
    apply String.eqb_eq in Heq. now destruct (Hnone v' Hin').
  - intros voices'. eexists. split; [apply Hany|reflexivity].
Qed.

Lemma callback_spoken b (now : Z) s :
  spoken (callback_events b now s)
  = match speakWeather (getVoices b now) s with
    | Normal (Some u) => [u]
    | _ => []
    end.
Proof.
  unfold callback_events. simpl. rewrite spoken_app.
  destruct (fetch b now (weather_url (city s)));
    destruct (speakWeather (getVoices b now) s) as [[u|]|]; reflexivity.
Qed.

(** When the forecast list of the render that [speakWeather] belongs to
    is empty, it builds no utterance and submits nothing to the speech
    sink; so a timer callback of a render whose list is empty (as it is
    until a fetch has succeeded) speaks nothing. *)
Theorem empty_forecast_silent voices s :
  weather s = JArray [] ->
  speakWeather voices s = Normal None
  /\ forall b now w,
       spoken (trace (callback b now s w)) = spoken (trace w).
Proof.
  intros Hw.
  assert (H : forall vs, speakWeather vs s = Normal None).
  { intros vs. unfold speakWeather. now rewrite Hw. }
  split; [apply H|].
  intros b now w. rewrite callback_unfold. simpl.
  rewrite spoken_app, callback_spoken, H. apply app_nil_r.
Qed.

End App.

(** *** Examples on the concrete host *)

Example new_year_parsed : UTC.parse "2024-01-01T00:00" = Some new_year.
Proof. reflexivity. Qed.

(** C5, at a target beyond the range of the timer.  At 2024-01-01T00:00
    the announcement is scheduled for 2024-01-26T00:00, 25 days later.  The
    timer is armed with the delay 2160000000 ms, which is more than
    2^31 - 1: as a [long] it is negative, so the timeout is 0 and the
    request to the aggregator leaves at the instant of the click. *)
Theorem schedule_beyond_timer_range :
  let w := scheduleSpeech new_year (London "2024-01-26T00:00") in
  UTC.parse "2024-01-26T00:00" = Some (new_year + 2160000000)%Z
  /\ armed (trace w) = [2160000000%Z]
  /\ map due (timers w) = [new_year]
  /\ forall b,
       fetches (trace (advance b new_year w))
       = [(new_year, "http://localhost:3001/weather?city=London")].
Proof.
  cbv zeta. repeat split.
  intros b. rewrite advance_fetches. reflexivity.
Qed.

Example two_slots_announcement :
  speakWeather [us_female; uk_male] with_forecast
  = Normal (Some {| text := announcement; voice := Some uk_male |}).
Proof. reflexivity. Qed.

Lemma schedule_not_future_rejected_witness :
  Date_parse UTC.host (scheduleTime (current (London "2023-12-31T23:59")))
  = Some 1704067140000%Z
  /\ (1704067140000 <= new_year)%Z
  /\ scheduleSpeech new_year (London "2023-12-31T23:59")
     = log new_year (Alert rejection) (London "2023-12-31T23:59").
Proof.
  assert (H1 : Date_parse UTC.host
                 (scheduleTime (current (London "2023-12-31T23:59")))
               = Some 1704067140000%Z) by reflexivity.
  assert (H2 : (1704067140000 <= new_year)%Z) by (unfold new_year; lia).
  split; [exact H1|split; [exact H2|]].
  exact (proj1 (schedule_not_future_rejected new_year 1704067140000
                  (London "2023-12-31T23:59") H1 H2)).
Defined.

Lemma schedule_invalid_date_rejected_witness :
  Date_parse UTC.host (scheduleTime (current (London ""))) = None
  /\ scheduleSpeech new_year (London "")
     = log new_year (Alert rejection) (London "").
Proof.
  assert (H : Date_parse UTC.host (scheduleTime (current (London ""))) = None)
    by reflexivity.
  split; [exact H|].
  exact (proj1 (schedule_invalid_date_rejected new_year (London "") H)).
Defined.

Lemma fetch_failure_keeps_state_witness :
  fetch offline new_year (weather_url (city with_forecast)) = NetworkError
  /\ current (fetchWeather offline new_year with_forecast
                {| current := with_forecast; timers := []; trace := [] |})
     = with_forecast.
Proof.
  split; [reflexivity|].
  exact (proj1 (fetch_failure_keeps_state offline new_year with_forecast
                  {| current := with_forecast; timers := []; trace := [] |}
                  (or_introl eq_refl))).
Defined.

Lemma utterance_of_bundle_witness :
  two_slots <> []
  /\ weather with_forecast = bundle_value two_slots
  /\ exists u,
       speakWeather [us_female; uk_male] with_forecast = Normal (Some u)
       /\ text u
          = "Here is the weather for the next 5 days in "
            ++ city with_forecast ++ "."
            ++ String.concat " " (map slot_sentence two_slots).
Proof.
  assert (H1 : two_slots <> []) by discriminate.
  assert (H2 : weather with_forecast = bundle_value two_slots)
    by reflexivity.
  split; [exact H1|split; [exact H2|]].
  exact (utterance_of_bundle [us_female; uk_male] with_forecast two_slots
           H1 H2).
Defined.

Lemma accent_voice_selection_witness :
  speakWeather [us_female; uk_male] with_forecast
  = Normal (Some {| text := announcement; voice := Some uk_male |})
  /\ ((exists v, In v [us_female; uk_male]
                 /\ name v = accents (accent with_forecast)) ->
      exists v, Some uk_male = Some v /\ In v [us_female; uk_male]
                /\ name v = accents (accent with_forecast)).
Proof.
  assert (H : speakWeather [us_female; uk_male] with_forecast
              = Normal (Some {| text := announcement;
                                voice := Some uk_male |}))
    by reflexivity.
  split; [exact H|].
  exact (proj1 (accent_voice_selection [us_female; uk_male] with_forecast
                  {| text := announcement; voice := Some uk_male |} H)).
Defined.

Lemma empty_forecast_silent_witness :
  weather (@initial_state UTC.host) = JArray []
  /\ speakWeather [us_female; uk_male] (@initial_state UTC.host) = Normal None.
Proof.
  split; [reflexivity|].
  exact (proj1 (empty_forecast_silent [us_female; uk_male] initial_state
                  eq_refl)).
Defined.

(** C9, with an empty stored list and a failing fetch.  A first
    announcement stores the forecast; two more are then scheduled, in a
    render that holds this forecast.  When the second runs, the endpoint
    answers with an empty list, which is stored.  When the third runs, the
    stored list is empty and the fetch fails: the callback logs the error,
    the stored list stays empty, and [speakWeather] still submits an
    utterance, the forecast of the render that armed the timer. *)
Theorem stale_forecast_spoken :
  weather (current at_three) = JArray []
  /\ map (fun tm => (due tm, weather (render tm))) (timers at_three)
     = [((new_year + 300000)%Z, bundle_value two_slots)]
  /\ fetch fickle (new_year + 300000) (weather_url "London") = NetworkError
  /\ weather (current at_five) = JArray []
  /\ trace at_five
     = (trace at_three
        ++ [((new_year + 300000)%Z,
             Fetch "http://localhost:3001/weather?city=London");
            ((new_year + 300000)%Z, ConsoleError "Error fetching weather:");
            ((new_year + 300000)%Z,
             Speak {| text := announcement; voice := Some uk_male |})])%list.
Proof. repeat split. Qed.

(** *** The render a callback belongs to

    The callback [fetchWeather().then(speakWeather)] calls the two closures
    of the render in which the button was clicked.  [setWeather] stores the
    fetched list for the next render; the [speakWeather] of the callback
    still reads the list of its own render. *)

(** Scheduled in the first render, the announcement fetches the forecast,
    stores it, and speaks nothing. *)
Example first_announcement :
  let w := advance online (new_year + 60000)
             (scheduleSpeech new_year (London "2024-01-01T00:01")) in
  fetches (trace w)
  = [((new_year + 60000)%Z, "http://localhost:3001/weather?city=London")]
  /\ weather (current w) = bundle_value two_slots
  /\ spoken (trace w) = [].
Proof. repeat split. Qed.

(** Scheduled again once the forecast is stored, the announcement speaks
    the stored forecast. *)
Example second_announcement :
  let w1 := advance online (new_year + 60000)
              (scheduleSpeech new_year (London "2024-01-01T00:01")) in
  let w2 := advance online (new_year + 180000)
              (scheduleSpeech (new_year + 120000)
                 {| current := setScheduleTime "2024-01-01T00:03" (current w1);
                    timers := timers w1;
                    trace := trace w1 |}) in
  spoken (trace w2)
  = [ {| text := announcement; voice := Some uk_male |} ].
Proof. reflexivity. Qed.

End FrontendProps.

(** ** More on the aggregator *)

Module BackendMore.
Import Backend Samples BackendProps.
Section Handler.
Context {P : Platform}.

Lemma try_block_list (data : JSValue P) (recs : list (JSValue P)) :
  field data "list" = JArray recs ->
  try_block data = mapM forecast_slot (firstn 40 recs).
Proof.
  intros Hlist.
  destruct data as [| | | | | |ps]; try discriminate.
  unfold try_block. simpl in Hlist |- *. now rewrite Hlist.
Qed.

Lemma list_or_not (data : JSValue P) :
  (exists recs, field data "list" = JArray recs)
  \/ (forall recs, field data "list" <> JArray recs).
Proof.
  destruct (field data "list") as [| | | | |recs|];
    try (right; discriminate).
  left. now exists recs.
Qed.

(** X1.  The endpoint answers 200 exactly when the upstream request is
    fulfilled with a body whose [list] is an array and whose first 40
    entries are all records; in every other case it sends the error
    response, so 200 and 500 are the only statuses. *)
Theorem weather_ok_iff (axios_get : string -> axios_result P) (city : string) :
  (status (weather_handler axios_get city) = 200
   <-> exists data recs,
         axios_get (forecast_url city) = Fulfilled data
         /\ field data "list" = JArray recs
         /\ forallb is_record (firstn 40 recs) = true)
  /\ (status (weather_handler axios_get city) = 200
      \/ weather_handler axios_get city = error_response).
Proof.
  split; [split|].
  - unfold weather_handler.
    destruct (axios_get (forecast_url city)) as [| |data]; try discriminate.
    destruct (list_or_not data) as [[recs Hlist]|Hno].
    + destruct (forallb is_record (firstn 40 recs)) eqn:Hrec.
      * intros _. now exists data, recs.
      * now rewrite (try_block_bad_record data recs Hlist Hrec).
    + now rewrite (try_block_no_list data Hno).
  - intros (data & recs & Hr & Hlist & Hrec).
    unfold weather_handler. rewrite Hr.
    now rewrite (try_block_records data recs Hlist Hrec).
  - unfold weather_handler.
    destruct (axios_get (forecast_url city)) as [| |data]; auto.
    destruct (try_block data); auto.
Qed.

(** X2.  Only the first 40 entries of the upstream list count: two
    fulfilled answers whose lists agree on their first 40 entries get the
    same response, whatever follows, well formed or not. *)
Theorem weather_ignores_tail (axios_get axios_get' : string -> axios_result P)
        (city : string) (recs recs' : list (JSValue P)) :
  returns_list (axios_get (forecast_url city)) recs ->
  returns_list (axios_get' (forecast_url city)) recs' ->
  firstn 40 recs = firstn 40 recs' ->
  weather_handler axios_get city = weather_handler axios_get' city.
Proof.
  intros (data & Hr & Hlist) (data' & Hr' & Hlist') Hsame.
  unfold weather_handler. rewrite Hr, Hr'.
  now rewrite (try_block_list data recs Hlist),
              (try_block_list data' recs' Hlist'), Hsame.
Qed.

(** X3.  Whatever the provider answers, a response that is not the error
    response has status 200 and, as body, an array with exactly
    [min 40 K] entries, [K] being the length of the upstream list: no
    entry of the first 40 is dropped and none is added, whatever the
    entries hold. *)
Theorem weather_response_length (axios_get : string -> axios_result P)
        (city : string) :
  weather_handler axios_get city = error_response
  \/ exists data recs slots,
       axios_get (forecast_url city) = Fulfilled data
       /\ Get data "list" = Normal (JArray recs)
       /\ status (weather_handler axios_get city) = 200
       /\ body (weather_handler axios_get city) = JArray slots
       /\ length slots = Nat.min 40 (length recs).
Proof.
  unfold weather_handler.
  destruct (axios_get (forecast_url city)) as [| |data]; auto.
  destruct (try_block data) as [slots|] eqn:Etry; auto.
  right. unfold try_block in Etry.
  destruct (Get data "list") as [l|] eqn:El; simpl in Etry; [|discriminate].
  destruct l as [| | | | |recs|]; simpl in Etry; try discriminate.
  change (mapM forecast_slot (firstn 40 recs) = Normal slots) in Etry.
  exists data, recs, slots. repeat split; auto.
  rewrite (mapM_length _ _ _ Etry). apply length_firstn.
Qed.

(** A record with a text timestamp, numeric temperatures and a text
    description gives the slot of these four values. *)
Lemma forecast_slot_typed (item : JSValue P) (x : Frontend.ForecastSlot P) :
  field item "dt_txt" = JString (Frontend.date x) ->
  field (field item "main") "temp" = JNumber (Frontend.temperature x) ->
  field (field item "main") "feels_like"
  = JNumber (Frontend.feltTemperature x) ->
  field (first_of (field item "weather")) "description"
  = JString (Frontend.description x) ->
  is_record item = true /\ slot_of item = Frontend.slot_value x.
Proof.
  intros Hd Ht Hf Hds.
  unfold slot_of, slot_object, extract, Frontend.slot_value; simpl.
  rewrite Hd, Ht, Hf, Hds. split; [|reflexivity].
  destruct item as [| | | | | |ps]; try discriminate.
  simpl in Ht, Hds |- *.
  destruct (or_undefined (lookup "main" ps)); try discriminate. simpl.
  unfold first_of in Hds.
  destruct (GetIndex (or_undefined (lookup "weather" ps)) 0) as [first|];
    [|discriminate].
  now destruct first.
Qed.

End Handler.

Lemma weather_ignores_tail_witness :
  returns_list (provider 41 (forecast_url "London")) (upstream_list 41)
  /\ returns_list (trailing_null (forecast_url "London"))
                  (upstream_list 45 ++ [JNull])
  /\ firstn 40 (upstream_list 41) = firstn 40 (upstream_list 45 ++ [JNull])
  /\ weather_handler (provider 41) "London"
     = weather_handler trailing_null "London".
Proof.
  assert (H1 : returns_list (provider 41 (forecast_url "London"))
                            (upstream_list 41))
    by (eexists; split; reflexivity).
  assert (H2 : returns_list (trailing_null (forecast_url "London"))
                            (upstream_list 45 ++ [JNull]))
    by (eexists; split; reflexivity).
  assert (H3 : firstn 40 (upstream_list 41)
               = firstn 40 (upstream_list 45 ++ [JNull])) by reflexivity.
  split; [exact H1|split; [exact H2|split; [exact H3|]]].
  exact (weather_ignores_tail (provider 41) trailing_null "London" _ _
           H1 H2 H3).
Defined.

End BackendMore.

(** ** More on the scheduler *)

Module FrontendMore.
Import Frontend View Samples FrontendProps.
Section App.
Context {P : Platform}.

Implicit Types (w : World P) (s : State P) (b : Browser P).

Lemma In_enqueue (tm x : Timer P) (queue : list (Timer P)) :
  In x (enqueue tm queue) <-> x = tm \/ In x queue.
Proof.
  induction queue as [|y queue IH]; simpl.
  - intuition.
  - destruct (due tm <? due y)%Z; simpl; [intuition|].
    rewrite IH. intuition.
Qed.

(** X4.  A click on the schedule button does exactly one of two things.
    When the schedule time is a date strictly later than [now], it arms
    one timer, with the positive delay [target - now], and shows nothing.
    Otherwise it shows the rejection message and leaves the timers as they
    are. *)
Theorem schedule_arms_or_alerts (now : Z) w :
  (exists target,
      Date_parse P (scheduleTime (current w)) = Some target
      /\ (now < target)%Z
      /\ trace (scheduleSpeech now w)
         = (trace w ++ [(now, SetTimeout (target - now))])%list
      /\ (0 < target - now)%Z
      /\ length (timers (scheduleSpeech now w)) = S (length (timers w)))
  \/ ((forall target,
          Date_parse P (scheduleTime (current w)) = Some target ->
          (target <= now)%Z)
      /\ trace (scheduleSpeech now w)
         = (trace w ++ [(now, Alert rejection)])%list
      /\ timers (scheduleSpeech now w) = timers w).
Proof.
  unfold scheduleSpeech.
  destruct (Date_parse P (scheduleTime (current w))) as [target|].
  - destruct (Z.ltb_spec now target).
    + left. exists target. repeat split; try lia.
      simpl. apply enqueue_length.
    + right. repeat split. intros t [= <-]. lia.
  - right. repeat split. discriminate.
Qed.

Lemma schedule_spoken (now : Z) w :
  spoken (trace (scheduleSpeech now w)) = spoken (trace w).
Proof.
  unfold scheduleSpeech.
  destruct (Date_parse P (scheduleTime (current w))) as [target|];
    [destruct (now <? target)%Z|]; simpl;
    rewrite spoken_app; simpl; apply app_nil_r.
Qed.

(** X5.  A click on the schedule button cancels nothing and starts
    nothing by itself: every pending timer stays pending, the state of the
    component is unchanged, and no request is sent and nothing is spoken
    at the click. *)
Theorem schedule_cancels_nothing (now : Z) w :
  current (scheduleSpeech now w) = current w
  /\ fetches (trace (scheduleSpeech now w)) = fetches (trace w)
  /\ spoken (trace (scheduleSpeech now w)) = spoken (trace w)
  /\ forall tm, In tm (timers w) -> In tm (timers (scheduleSpeech now w)).
Proof.
  unfold scheduleSpeech.
  destruct (Date_parse P (scheduleTime (current w))) as [target|];
    [destruct (now <? target)%Z|]; simpl;
    rewrite fetches_app, spoken_app; simpl; rewrite !app_nil_r;
    repeat split; auto.
  intros tm Hin. apply In_enqueue. now right.
Qed.

Lemma run_spoken_quiet b (ready : list (Timer P)) :
  Forall (fun tm => weather (render tm) = JArray []) ready ->
  forall w, spoken (trace (run b ready w)) = spoken (trace w).
Proof.
  unfold run. induction 1 as [|tm ready Htm _ IH]; intros w; simpl.
  - reflexivity.
  - rewrite IH, callback_unfold. simpl.
    rewrite spoken_app, callback_spoken.
    unfold speakWeather. rewrite Htm. simpl. apply app_nil_r.
Qed.

Lemma Forall_filter {A} (Q : A -> Prop) (p : A -> bool) (xs : list A) :
  Forall Q xs -> Forall Q (filter p xs).
Proof.
  induction 1 as [|x xs Hx _ IH]; simpl; [constructor|].
  destruct (p x); [now constructor|assumption].
Qed.

Lemma Forall_enqueue (Q : Timer P -> Prop) (tm : Timer P)
      (queue : list (Timer P)) :
  Q tm -> Forall Q queue -> Forall Q (enqueue tm queue).
Proof.
  intros Htm. induction 1 as [|x queue Hx Hq IH]; simpl.
  - now constructor.
  - destruct (due tm <? due x)%Z; repeat constructor; assumption.
Qed.

(** X6.  As long as no forecast has been stored, scheduling is silent:
    in a world where the current render and the renders of the pending
    timers hold the empty list (the world after loading is one), a click
    leaves such a world, and the event loop then speaks nothing up to any
    instant, whatever the requests return. *)
Theorem announcement_before_first_forecast_silent (now : Z) w :
  quiet w ->
  quiet (scheduleSpeech now w)
  /\ forall b t,
       spoken (trace (advance b t (scheduleSpeech now w))) = spoken (trace w).
Proof.
  intros [Hcur Htimers].
  assert (Hq : quiet (scheduleSpeech now w)).
  { unfold quiet, scheduleSpeech.
    destruct (Date_parse P (scheduleTime (current w))) as [target|];
      [destruct (now <? target)%Z|]; simpl; split; auto.
    now apply Forall_enqueue. }
  split; [exact Hq|].
  intros b t. rewrite advance_run, run_spoken_quiet.
  - simpl. apply schedule_spoken.
  - apply Forall_filter. apply Hq.
Qed.

(** X7.  What a timer callback speaks is decided by the render that
    armed it and by the voice list alone: with the same voices, the
    utterances it adds (at most one) are the same whatever the request
    returns and whatever the component holds by then.  A forecast that
    the request does return is stored for the next render. *)
Theorem callback_speaks_its_render b b' (now : Z) s w w' :
  getVoices b now = getVoices b' now ->
  (exists said,
      length said <= 1
      /\ spoken (trace (callback b now s w)) = (spoken (trace w) ++ said)%list
      /\ spoken (trace (callback b' now s w'))
         = (spoken (trace w') ++ said)%list)
  /\ forall data,
       fetch b now (weather_url (city s)) = Json data ->
       weather (current (callback b now s w)) = data.
Proof.
  intros Hvoices. split.
  - exists (match speakWeather (getVoices b now) s with
            | Normal (Some u) => [u]
            | _ => []
            end).
    rewrite !callback_unfold. simpl.
    rewrite !spoken_app, !callback_spoken, <- Hvoices.
    repeat split.
    destruct (speakWeather (getVoices b now) s) as [[u|]|]; simpl; lia.
  - intros data Hdata. rewrite callback_unfold. simpl.
    unfold callback_state. now rewrite Hdata.
Qed.

(** X8.  The utterance names the city of its render and lists whatever
    forecast that render holds: after the city field is edited the same
    forecast is announced under the new name. *)
Theorem utterance_names_current_city voices s (c : string)
        (u : SpeechSynthesisUtterance) :
  speakWeather voices s = Normal (Some u) ->
  exists rest,
    text u = intro (city s) ++ rest
    /\ speakWeather voices (setCity c s)
       = Normal (Some {| text := intro c ++ rest; voice := voice u |}).
Proof.
  unfold speakWeather. simpl.
  destruct (length_gt0 (weather s)) as [[|]|]; simpl; try discriminate.
  destruct (call_map sentence (weather s)) as [sentences|]; simpl;
    [|discriminate].
  intros [= <-]. simpl. now exists (String.concat " " sentences).
Qed.

Lemma forallb_false_In {A} (p : A -> bool) (x : A) (xs : list A) :
  In x xs -> p x = false -> forallb p xs = false.
Proof.
  intros Hin Hx. destruct (forallb p xs) eqn:E; [|reflexivity].
  rewrite forallb_forall in E. now rewrite (E x Hin) in Hx.
Qed.

(** X9.  One [null] entry in the stored array aborts the whole
    announcement: [speakWeather] throws before any utterance is built, so
    the valid slots around it are not spoken either. *)
Theorem null_slot_aborts_announcement voices s (items : list (JSValue P)) :
  weather s = JArray items ->
  In JNull items ->
  speakWeather voices s = Throw
  /\ forall b now w,
       getVoices b now = voices ->
       spoken (trace (callback b now s w)) = spoken (trace w).
Proof.
  intros Hw Hin.
  assert (H : forall vs, speakWeather vs s = Throw).
  { intros vs. unfold speakWeather. rewrite Hw. simpl.
    destruct items as [|x items]; [destruct Hin|]. simpl negb. cbv iota.
    rewrite (BackendProps.mapM_throw sentence
               (fun v => match v with JNull => false | _ => true end)
               (x :: items)); [reflexivity| |].
    - intros v Hv. now destruct v.
    - now apply (forallb_false_In _ JNull). }
  split; [apply H|].
  intros b now w _. rewrite callback_unfold. simpl.
  rewrite spoken_app, callback_spoken, H. apply app_nil_r.
Qed.

(** X10.  [fetchWeather] stores any JSON body, whatever the status of the
    response.  An object without a [length] (the body of the endpoint's
    500 is one) replaces the forecast without a word on the console, and a
    render that holds it speaks nothing and throws nothing. *)
Theorem error_body_stored_silently b (now : Z) s w
        (ps : list (string * JSValue P)) :
  fetch b now (weather_url (city s)) = Json (JObject ps) ->
  lookup "length" ps = None ->
  weather (current (fetchWeather b now s w)) = JObject ps
  /\ trace (fetchWeather b now s w)
     = (trace w ++ [(now, Fetch (weather_url (city s)))])%list
  /\ forall voices s',
       weather s' = JObject ps -> speakWeather voices s' = Normal None.
Proof.
  intros Hfetch Hlen. unfold fetchWeather. rewrite Hfetch. simpl.
  repeat split.
  intros voices s' Hw. unfold speakWeather. rewrite Hw. simpl.
  now rewrite Hlen.
Qed.

Lemma run_inputs b (ready : list (Timer P)) : forall w,
  city (current (run b ready w)) = city (current w)
  /\ accent (current (run b ready w)) = accent (current w)
  /\ scheduleTime (current (run b ready w)) = scheduleTime (current w)
  /\ voicePermissionsGranted (current (run b ready w))
     = voicePermissionsGranted (current w).
Proof.
  unfold run. induction ready as [|tm ready IH]; intros w; simpl.
  - auto.
  - destruct (IH (callback b (due tm) (render tm) w)) as (-> & -> & -> & ->).
    rewrite callback_unfold. simpl. unfold callback_state.
    destruct (fetch b (due tm) (weather_url (city (render tm)))); auto.
Qed.

(** X11.  The event loop never touches what the user entered: up to any
    instant, the city, the accent, the schedule time and the voice flag of
    the component are what they were; of the state, timer callbacks change
    the forecast only. *)
Theorem event_loop_keeps_inputs b (t : Z) w :
  city (current (advance b t w)) = city (current w)
  /\ accent (current (advance b t w)) = accent (current w)
  /\ scheduleTime (current (advance b t w)) = scheduleTime (current w)
  /\ voicePermissionsGranted (current (advance b t w))
     = voicePermissionsGranted (current w).
Proof.
  rewrite advance_run.
  exact (run_inputs b (filter (fun tm => (due tm <=? t)%Z) (timers w))
           {| current := current w;
              timers := filter (fun tm => negb (due tm <=? t)%Z) (timers w);
              trace := trace w |}).
Qed.

Lemma ToString_print (v : JSValue P) :
  primitive v = true -> ToString v = Normal (print v).
Proof. destruct v as [| |[|]| | | |]; simpl; try discriminate; reflexivity. Qed.

Lemma Date_of_value (v : JSValue P) :
  primitive v = true -> Date_of v = Normal (date_value v).
Proof. destruct v as [| |[|]| | | |]; simpl; try discriminate; reflexivity. Qed.

Lemma sentence_read_out (ps : list (string * JSValue P)) :
  primitive (or_undefined (lookup "date" ps)) = true ->
  primitive (or_undefined (lookup "temperature" ps)) = true ->
  primitive (or_undefined (lookup "feels_like" ps)) = true ->
  primitive (or_undefined (lookup "description" ps)) = true ->
  sentence (JObject ps) = Normal (read_out ps).
Proof.
  intros Hd Ht Hf Hds. unfold sentence, read_out. cbn [Get bind].
  now rewrite (Date_of_value _ Hd), (ToString_print _ Ht),
              (ToString_print _ Hf), (ToString_print _ Hds).
Qed.

(** X12.  An array of objects whose [date], [temperature], [feels_like]
    and [description] are plain values or are missing does not stop the
    announcement: [speakWeather] submits the intro followed by one sentence
    per object, in which a missing field is read out as "undefined" and a
    [null] field as "null". *)
Theorem plain_slots_are_read_out voices s
        (objects : list (list (string * JSValue P))) :
  weather s = JArray (map JObject objects) ->
  objects <> [] ->
  Forall (fun ps =>
            primitive (or_undefined (lookup "date" ps)) = true
            /\ primitive (or_undefined (lookup "temperature" ps)) = true
            /\ primitive (or_undefined (lookup "feels_like" ps)) = true
            /\ primitive (or_undefined (lookup "description" ps)) = true)
         objects ->
  speakWeather voices s
  = Normal (Some {| text := intro (city s)
                            ++ String.concat " " (map read_out objects);
                    voice := select_voice (accent s) voices |}).
Proof.
  intros Hw Hne Hplain.
  rewrite (speakWeather_array voices s _ Hw).
  - assert (H : mapM sentence (map JObject objects)
                = Normal (map read_out objects)).
    { clear Hw Hne. induction Hplain as [|ps objects (Hd & Ht & Hf & Hds) _ IH];
        [reflexivity|].
      cbn [map mapM].
      now rewrite (sentence_read_out ps Hd Ht Hf Hds), IH. }
    now rewrite H.
  - destruct objects; [contradiction|discriminate].
Qed.

(** *** The accent buttons *)

Lemma active_button_of s :
  map key (filter (fun bt => String.eqb (class bt) "accent-button active")
                  (accent_buttons s))
  = [key_name (accent s)].
Proof. destruct s as [c a wv g st]. destruct a; reflexivity. Qed.

(** X13.  Every render shows nine accent buttons of which exactly one is
    marked active, the one of the current accent; after a click on a
    button, that button is the active one. *)
Theorem one_button_active s :
  length (accent_buttons s) = 9
  /\ map key (filter (fun bt => String.eqb (class bt) "accent-button active")
                     (accent_buttons s))
     = [key_name (accent s)]
  /\ forall bt,
       In bt (accent_buttons s) ->
       map key (filter (fun bt' =>
                          String.eqb (class bt') "accent-button active")
                       (accent_buttons (onClick bt s)))
       = [key bt].
Proof.
  split; [reflexivity|split; [apply active_button_of|]].
  intros bt Hin. unfold accent_buttons in Hin.
  apply in_map_iff in Hin as (acc & <- & _).
  exact (active_button_of (handleAccentChange acc s)).
Qed.

Lemma capitalize_length (inside : bool) (t : string) :
  String.length (capitalize inside t) = String.length t.
Proof.
  revert inside. induction t as [|c t IH]; intros inside; simpl;
    [reflexivity|now rewrite IH].
Qed.

Lemma replace_underscore_length (t : string) :
  String.length (replace_underscore t) = String.length t.
Proof.
  induction t as [|c t IH]; simpl; [reflexivity|].
  destruct (Ascii.eqb c "_"); simpl; [reflexivity|now rewrite IH].
Qed.

(** X14.  The text of a button has the length of its key, and the nine
    buttons read, in order, British Male, British Female, British Slang,
    French Male, French Female, Italian Male, Italian Female, Jamaican
    Male and Jamaican Female, in every state. *)
Theorem button_labels s :
  (forall acc, String.length (label acc) = String.length acc)
  /\ map children (accent_buttons s)
     = ["British Male"; "British Female"; "British Slang";
        "French Male"; "French Female";
        "Italian Male"; "Italian Female";
        "Jamaican Male"; "Jamaican Female"].
Proof.
  split; [|reflexivity].
  intros acc. unfold label.
  now rewrite capitalize_length, replace_underscore_length.
Qed.

(** *** The voice flag *)

Lemma same_inputs_refl s : same_inputs s s.
Proof. repeat split. Qed.

Lemma same_timers_refl (queue : list (Timer P)) : Forall2 same_timer queue queue.
Proof.
  induction queue as [|tm queue IH]; [apply Forall2_nil|].
  apply Forall2_cons; [|exact IH].
  split; [reflexivity|apply same_inputs_refl].
Qed.

Lemma callback_events_same b (now : Z) s s' :
  same_inputs s s' -> callback_events b now s = callback_events b now s'.
Proof.
  intros (Hc & Ha & Hw & _). unfold callback_events, speakWeather.
  now rewrite Hc, Ha, Hw.
Qed.

Lemma run_trace b (ready : list (Timer P)) : forall w,
  trace (run b ready w)
  = (trace w
     ++ flat_map (fun tm => callback_events b (due tm) (render tm)) ready)%list.
Proof.
  unfold run. induction ready as [|tm ready IH]; intros w; simpl.
  - now rewrite app_nil_r.
  - rewrite IH, callback_unfold. simpl. now rewrite <- app_assoc.
Qed.

Lemma same_timers_filter (p : Z -> bool) (q q' : list (Timer P)) :
  Forall2 same_timer q q' ->
  Forall2 same_timer (filter (fun tm => p (due tm)) q)
                     (filter (fun tm => p (due tm)) q').
Proof.
  induction 1 as [|tm tm' q q' Htm _ IH]; simpl; [apply Forall2_nil|].
  rewrite (proj1 Htm).
  destruct (p (due tm')); [apply Forall2_cons|]; assumption.
Qed.

Lemma same_timers_enqueue (tm tm' : Timer P) (q q' : list (Timer P)) :
  same_timer tm tm' ->
  Forall2 same_timer q q' ->
  Forall2 same_timer (enqueue tm q) (enqueue tm' q').
Proof.
  intros Htm. induction 1 as [|x x' q q' Hx Hq IH]; simpl.
  - apply Forall2_cons; [exact Htm|apply Forall2_nil].
  - rewrite (proj1 Htm), (proj1 Hx).
    destruct (due tm' <? due x')%Z.
    + apply Forall2_cons; [exact Htm|]. now apply Forall2_cons.
    + apply Forall2_cons; [exact Hx|exact IH].
Qed.

Lemma same_timers_events b (q q' : list (Timer P)) :
  Forall2 same_timer q q' ->
  flat_map (fun tm => callback_events b (due tm) (render tm)) q
  = flat_map (fun tm => callback_events b (due tm) (render tm)) q'.
Proof.
  induction 1 as [|tm tm' q q' [Hdue Hs] _ IH]; [reflexivity|].
  cbn [flat_map].
  now rewrite IH, Hdue, (callback_events_same b (due tm') _ _ Hs).
Qed.

Lemma advance_same_trace b (t : Z) w w' :
  trace w = trace w' ->
  Forall2 same_timer (timers w) (timers w') ->
  trace (advance b t w) = trace (advance b t w').
Proof.
  intros Htrace Htimers. rewrite !advance_run, !run_trace. simpl.
  rewrite Htrace. f_equal. apply same_timers_events.
  exact (same_timers_filter (fun d => (d <=? t)%Z) _ _ Htimers).
Qed.

(** X15.  The flag that the enable-voice button sets is never consulted:
    in a browser with speech synthesis, scheduling after a click on that
    button leads to the very same alerts, timers, requests and utterances,
    at the same instants, as scheduling without it.  Without speech
    synthesis the button only shows a message. *)
Theorem enabling_voice_changes_no_announcement b (now0 now t : Z) w :
  trace (advance b t (scheduleSpeech now (requestVoicePermissions true now0 w)))
  = trace (advance b t (scheduleSpeech now w))
  /\ requestVoicePermissions false now0 w
     = log now0 (Alert "Speech synthesis not supported in this browser.") w.
Proof.
  split; [|reflexivity].
  apply advance_same_trace; unfold requestVoicePermissions, scheduleSpeech;
    simpl;
    (destruct (Date_parse P (scheduleTime (current w))) as [target|];
     [destruct (now <? target)%Z|]); simpl; try reflexivity;
    try apply same_timers_refl.
  apply same_timers_enqueue; [|apply same_timers_refl].
  split; [reflexivity|]. repeat split.
Qed.

End App.

(** *** On the concrete host *)

Example label_second_underscore : label "a_b_c" = "A B_c".
Proof. reflexivity. Qed.

Lemma schedule_fires_once_in_range_witness :
  Date_parse UTC.host (scheduleTime (current (London "2024-01-01T00:01")))
  = Some (new_year + 60000)%Z
  /\ (0 < 60000 <= 2147483647)%Z
  /\ armed (trace (scheduleSpeech new_year (London "2024-01-01T00:01")))
     = [60000%Z].
Proof.
  assert (H1 : Date_parse UTC.host
                 (scheduleTime (current (London "2024-01-01T00:01")))
               = Some (new_year + 60000)%Z) by reflexivity.
  assert (H2 : (0 < 60000 <= 2147483647)%Z) by lia.
  split; [exact H1|split; [exact H2|]].
  exact (proj1 (schedule_fires_once_in_range online new_year 60000
                  (London "2024-01-01T00:01") H1 H2)).
Defined.

Lemma announcement_before_first_forecast_silent_witness :
  quiet (London "2024-01-01T00:01")
  /\ quiet (scheduleSpeech new_year (London "2024-01-01T00:01")).
Proof.
  assert (H : quiet (London "2024-01-01T00:01"))
    by (split; [reflexivity|constructor]).
  split; [exact H|].
  exact (proj1 (announcement_before_first_forecast_silent new_year
                  (London "2024-01-01T00:01") H)).
Defined.

Lemma callback_speaks_its_render_witness :
  getVoices online new_year = getVoices offline new_year
  /\ forall data,
       fetch online new_year (weather_url (city (@initial_state UTC.host)))
       = Json data ->
       weather (current (callback online new_year initial_state start))
       = data.
Proof.
  split; [reflexivity|].
  exact (proj2 (callback_speaks_its_render online offline new_year
                  initial_state start start eq_refl)).
Defined.

Lemma utterance_names_current_city_witness :
  speakWeather [us_female; uk_male] with_forecast
  = Normal (Some {| text := announcement; voice := Some uk_male |})
  /\ exists rest,
       announcement = intro (city with_forecast) ++ rest
       /\ speakWeather [us_female; uk_male] (setCity "Paris" with_forecast)
          = Normal (Some {| text := intro "Paris" ++ rest;
                            voice := Some uk_male |}).
Proof.
  assert (H : speakWeather [us_female; uk_male] with_forecast
              = Normal (Some {| text := announcement;
                                voice := Some uk_male |}))
    by reflexivity.
  split; [exact H|].
  exact (utterance_names_current_city [us_female; uk_male] with_forecast
           "Paris" {| text := announcement; voice := Some uk_male |} H).
Defined.

Lemma null_slot_aborts_announcement_witness :
  In JNull (map slot_value (firstn 1 two_slots)
            ++ [JNull] ++ map slot_value (skipn 1 two_slots))%list
  /\ speakWeather [us_female; uk_male] with_null = Throw.
Proof.
  assert (H : In JNull (map slot_value (firstn 1 two_slots)
                        ++ [JNull] ++ map slot_value (skipn 1 two_slots))%list)
    by (simpl; auto).
  split; [exact H|].
  exact (proj1 (null_slot_aborts_announcement [us_female; uk_male] with_null
                  _ eq_refl H)).
Defined.

Lemma error_body_stored_silently_witness :
  fetch failing_server new_year (weather_url (city (@initial_state UTC.host)))
  = Json (Backend.body Backend.error_response)
  /\ weather (current (fetchWeather failing_server new_year initial_state start))
     = Backend.body Backend.error_response.
Proof.
  split; [reflexivity|].
  exact (proj1 (error_body_stored_silently failing_server new_year
                  initial_state start
                  [("error", JString "Error fetching weather data")]
                  eq_refl eq_refl)).
Defined.

Lemma plain_slots_are_read_out_witness :
  weather with_gaps = JArray (map JObject [gaps])
  /\ speakWeather [us_female; uk_male] with_gaps
     = Normal (Some {| text := "Here is the weather for the next 5 days in "
                               ++ "London.On 1/1/2024, the temperature will "
                               ++ "be null degrees Celsius, feels like "
                               ++ "undefined degrees, with undefined.";
                       voice := Some uk_male |}).
Proof.
  split; [reflexivity|].
  apply (plain_slots_are_read_out [us_female; uk_male] with_gaps [gaps]
           eq_refl).
  - discriminate.
  - repeat constructor.
Defined.

End FrontendMore.

(** ** From the provider to the utterance *)

Module Pipeline.
Import Backend Frontend View Samples BackendProps FrontendProps.
Section App.
Context {P : Platform}.

Lemma typed_record_slot (item : JSValue P) (x : ForecastSlot P) :
  typed_record item x -> forecast_slot item = Normal (slot_value x).
Proof.
  intros (Hd & Ht & Hf & Hds).
  destruct (BackendMore.forecast_slot_typed item x Hd Ht Hf Hds) as [Hrec <-].
  now apply forecast_slot_record.
Qed.

Lemma typed_records_slots (recs : list (JSValue P))
      (bundle : list (ForecastSlot P)) :
  Forall2 typed_record recs bundle ->
  mapM forecast_slot recs = Normal (map slot_value bundle).
Proof.
  induction 1 as [|item x recs bundle Hx _ IH]; simpl; [reflexivity|].
  now rewrite (typed_record_slot item x Hx), IH.
Qed.

Lemma Forall2_firstn {A B} (R : A -> B -> Prop) (n : nat) (xs : list A)
      (ys : list B) :
  Forall2 R xs ys -> Forall2 R (firstn n xs) (firstn n ys).
Proof.
  intros H. revert n. induction H as [|x y xs ys Hxy _ IH]; intros n.
  - rewrite !firstn_nil. apply Forall2_nil.
  - destruct n as [|n]; simpl; [apply Forall2_nil|].
    apply Forall2_cons; [exact Hxy|apply IH].
Qed.

(** X16.  The two programs agree on the shape of a slot.  From upstream
    records with a text timestamp, numeric temperatures and a text
    description the endpoint builds the array of the first 40 slots, and a
    render that holds this array speaks the intro and then the sentence of
    each of these slots, in the order of the upstream list. *)
Theorem upstream_records_are_spoken (axios_get : string -> axios_result P)
        (town : string) (recs : list (JSValue P))
        (bundle : list (ForecastSlot P)) :
  returns_list (axios_get (forecast_url town)) recs ->
  Forall2 typed_record recs bundle ->
  bundle <> [] ->
  status (weather_handler axios_get town) = 200
  /\ body (weather_handler axios_get town) = bundle_value (firstn 40 bundle)
  /\ forall voices s,
       weather s = body (weather_handler axios_get town) ->
       exists u,
         speakWeather voices s = Normal (Some u)
         /\ text u
            = intro (city s)
              ++ String.concat " " (map slot_sentence (firstn 40 bundle)).
Proof.
  intros (data & Hr & Hlist) Htyped Hne.
  assert (H : weather_handler axios_get town
              = ok_response (map slot_value (firstn 40 bundle))).
  { unfold weather_handler. rewrite Hr.
    rewrite (BackendMore.try_block_list data recs Hlist).
    now rewrite (typed_records_slots _ _ (Forall2_firstn _ 40 _ _ Htyped)). }
  rewrite H. simpl. repeat split.
  intros voices s Hw.
  exists {| text := intro (city s)
                    ++ String.concat " "
                         (map slot_sentence (firstn 40 bundle));
            voice := select_voice (accent s) voices |}.
  split; [|reflexivity].
  rewrite (speakWeather_array voices s _ Hw).
  - rewrite (mapM_total sentence
               (fun v => match sentence v with
                         | Normal t => t | Throw => "" end)).
    + simpl. rewrite map_map. reflexivity.
    + intros v Hv. apply in_map_iff in Hv as (x & <- & _).
      now rewrite sentence_slot.
  - destruct bundle; [contradiction|discriminate].
Qed.

End App.

Lemma upstream_records_are_spoken_witness :
  returns_list (provider 41 (forecast_url "London")) (upstream_list 41)
  /\ Forall2 typed_record (upstream_list 41) (upstream_bundle 41)
  /\ upstream_bundle 41 <> []
  /\ status (weather_handler (provider 41) "London") = 200.
Proof.
  assert (H1 : returns_list (provider 41 (forecast_url "London"))
                            (upstream_list 41))
    by (eexists; split; reflexivity).
  assert (H2 : Forall2 typed_record (upstream_list 41) (upstream_bundle 41))
    by (repeat (apply Forall2_cons; [repeat split|]); apply Forall2_nil).
  assert (H3 : upstream_bundle 41 <> []) by discriminate.
  split; [exact H1|split; [exact H2|split; [exact H3|]]].
  exact (proj1 (upstream_records_are_spoken (provider 41) "London"
                  (upstream_list 41) (upstream_bundle 41) H1 H2 H3)).
Defined.

End Pipeline.

(** ** Requests and voices *)

Module Requests.
Import Backend Frontend View Samples FrontendProps.

Lemma string_length_app (a b : string) :
  String.length (a ++ b) = String.length a + String.length b.
Proof. induction a as [|c a IH]; simpl; [reflexivity|now rewrite IH]. Qed.

Lemma string_app_inv_head (p a b : string) : p ++ a = p ++ b -> a = b.
Proof.
  induction p as [|c p IH]; simpl; [auto|]. intros [= H]. now apply IH.
Qed.

Lemma string_app_inv_tail (a b t : string) : a ++ t = b ++ t -> a = b.
Proof.
  revert b. induction a as [|c a IH]; intros [|d b] H; simpl in H.
  - reflexivity.
  - apply (f_equal String.length) in H. simpl in H.
    rewrite string_length_app in H. lia.
  - apply (f_equal String.length) in H. simpl in H.
    rewrite string_length_app in H. lia.
  - injection H as -> H. f_equal. now apply IH.
Qed.

Section App.
Context {P : Platform}.

Implicit Types (w : World P) (s : State P) (b : Browser P).

(** X18.  The city goes into both request URLs as it is typed: two
    different city strings, were they to differ by case or by a blank
    only, always give two different requests, from the component to the
    endpoint and from the endpoint to the provider. *)
Theorem city_is_forwarded_verbatim (c c' : string) :
  (weather_url c = weather_url c' -> c = c')
  /\ (forecast_url c = forecast_url c' -> c = c').
Proof.
  split; intros H.
  - exact (string_app_inv_head _ _ _ H).
  - unfold forecast_url in H. apply string_app_inv_head in H.
    exact (string_app_inv_tail _ _ _ H).
Qed.

(** X19.  Up to any instant the event loop sends exactly one request per
    timer due by then, whatever the earlier requests returned and whether
    or not speaking threw: the requests are those of the trace so far,
    followed, in the order of the queue, by one request per due timer, at
    the instant the timer is due and for the city of the render that armed
    it.  The timers left pending are exactly those not yet due, in their
    order. *)
Theorem one_request_per_due_timer b (t : Z) w :
  fetches (trace (advance b t w))
  = (fetches (trace w)
     ++ map (fun tm => (due tm, weather_url (city (render tm))))
            (filter (fun tm => (due tm <=? t)%Z) (timers w)))%list
  /\ timers (advance b t w) = filter (fun tm => (t <? due tm)%Z) (timers w)
  /\ forall tm, In tm (timers (advance b t w))
                <-> In tm (timers w) /\ (t < due tm)%Z.
Proof.
  assert (H : timers (advance b t w)
              = filter (fun tm => (t <? due tm)%Z) (timers w)).
  { rewrite advance_timers. apply filter_ext. intros tm.
    destruct (Z.leb_spec (due tm) t), (Z.ltb_spec t (due tm));
      try reflexivity; lia. }
  split; [apply advance_fetches|split; [exact H|]].
  intros tm. rewrite H, filter_In. now rewrite Z.ltb_lt.
Qed.

(** X20.  The accent decides the voice and nothing else: the text of the
    utterance is the same under every accent.  The slang key selects the
    voice of [british_male] and the two French keys select one voice, so
    these choices give the same utterance. *)
Theorem accent_changes_voice_only voices s :
  (forall a a' (u : SpeechSynthesisUtterance),
      speakWeather voices (setAccent a s) = Normal (Some u) ->
      exists u', speakWeather voices (setAccent a' s) = Normal (Some u')
                 /\ text u' = text u)
  /\ speakWeather voices (setAccent british_slang s)
     = speakWeather voices (setAccent british_male s)
  /\ speakWeather voices (setAccent french_female s)
     = speakWeather voices (setAccent french_male s).
Proof.
  split; [|split; reflexivity].
  intros a a' u. unfold speakWeather. simpl.
  destruct (length_gt0 (weather s)) as [[|]|]; simpl; try discriminate.
  destruct (call_map sentence (weather s)) as [sentences|]; simpl;
    [|discriminate].
  intros [= <-]. eexists. split; reflexivity.
Qed.

End App.

Lemma city_is_forwarded_verbatim_witness :
  weather_url "London" = weather_url "London" /\ "London" = "London".
Proof.
  split; [reflexivity|].
  exact (proj1 (city_is_forwarded_verbatim "London" "London") eq_refl).
Defined.

Lemma accent_changes_voice_only_witness :
  speakWeather [us_female; uk_male] (setAccent british_male with_forecast)
  = Normal (Some {| text := announcement; voice := Some uk_male |})
  /\ exists u',
       speakWeather [us_female; uk_male]
                    (setAccent jamaican_female with_forecast)
       = Normal (Some u')
       /\ text u' = announcement.
Proof.
  split; [reflexivity|].
  exact (proj1 (accent_changes_voice_only [us_female; uk_male] with_forecast)
           british_male jamaican_female
           {| text := announcement; voice := Some uk_male |} eq_refl).
Defined.

End Requests.
